(** * qb-port-sync: a shallow embedding of the port acquisition engine

    The Rust sources embedded here are
    - [src/watch.rs]          : [parse_port], [run_file_watcher];
    - [src/portmap/mod.rs]    : [map_prefer_pcp_fallback_natpmp], [build_request],
                                [resolve_gateway], [effective_protocol];
    - [src/portmap/natpmp.rs] : [map];
    - [src/error.rs]          : [classify_error];
    - [src/qbit.rs]           : [set_listen_port];
    - [src/main.rs]           : [run], [portmap_cycle], [prefer_file_strategy],
                                [resolve_plan], [resolve_forwarded_port_path];
    - [src/config.rs]         : [resolved_forwarded_port_path].

    Integers are [N]; a [u16] is an [N] below 65536.  Effects (log lines,
    network calls) are recorded in an explicit trace, and the outcomes of the
    host (filesystem, gateway, torrent client) are inputs of the functions. *)

From Stdlib Require Import List String Ascii NArith Bool Lia.
Import ListNotations.
Open Scope N_scope.
Set Warnings "-register-all".

(* ------------------------------------------------------------------------- *)
(** ** Rust [str::trim] and [u16::from_str] (radix 10) *)

Module Parse.

(** A Rust [&str] is the list of its UTF-8 bytes.  [char::is_whitespace] is
    the Unicode White_Space property: U+0009..U+000D and U+0020 (one byte),
    U+0085 and U+00A0 (two bytes), U+1680, U+2000..U+200A, U+2028, U+2029,
    U+202F, U+205F and U+3000 (three bytes). *)
Definition ws_byte1 (a : ascii) : bool :=
  let a := N_of_ascii a in ((9 <=? a) && (a <=? 13)) || (a =? 32).

Definition ws_byte2 (a b : ascii) : bool :=
  let a := N_of_ascii a in let b := N_of_ascii b in
  (a =? 194) && ((b =? 133) || (b =? 160)).

Definition ws_byte3 (a b c : ascii) : bool :=
  let a := N_of_ascii a in let b := N_of_ascii b in let c := N_of_ascii c in
  ((a =? 225) && (b =? 154) && (c =? 128))
  || ((a =? 226) && (b =? 128)
      && (((128 <=? c) && (c <=? 138)) || (c =? 168) || (c =? 169) || (c =? 175)))
  || ((a =? 226) && (b =? 129) && (c =? 159))
  || ((a =? 227) && (b =? 128) && (c =? 128)).


(** Drops leading whitespace chars; [w2] and [w3] recognise the two- and
    three-byte encodings in the order the bytes are scanned. *)
Fixpoint strip_ws (w2 : ascii -> ascii -> bool) (w3 : ascii -> ascii -> ascii -> bool)
  (s : list ascii) : list ascii :=
  match s with
  | [] => []
  | a :: s1 =>
      if ws_byte1 a then strip_ws w2 w3 s1 else
      match s1 with
      | [] => s
      | b :: s2 =>
          if w2 a b then strip_ws w2 w3 s2 else
          match s2 with
          | [] => s
          | c :: s3 => if w3 a b c then strip_ws w2 w3 s3 else s
          end
      end
  end.

(** [str::trim_start] *)
Definition trim_start (s : list ascii) : list ascii := strip_ws ws_byte2 ws_byte3 s.

(** [str::trim_end]: the same scan over the reversed bytes. *)
Definition trim_end (s : list ascii) : list ascii :=
  rev (strip_ws (fun b a => ws_byte2 a b) (fun c b a => ws_byte3 a b c) (rev s)).

(** [str::trim] *)
Definition trim (s : list ascii) : list ascii := trim_end (trim_start s).

Inductive ParseIntError := Empty | InvalidDigit | PosOverflow.

(** [char::to_digit(10)] *)
Definition to_digit (c : ascii) : option N :=
  let n := N_of_ascii c in
  if (48 <=? n) && (n <=? 57) then Some (n - 48) else None.

Definition U16_MAX : N := 65535.

(** [checked_mul] / [checked_add] on [u16] *)
Definition checked_u16 (n : N) : option N :=
  if n <=? U16_MAX then Some n else None.

(** The digit loop of [from_str_radix]: for each byte the product
    [result * 10] is computed (checked), then the digit is validated, then the
    overflow of the product is reported, then the digit is added (checked). *)
Fixpoint digits_loop (result : N) (ds : list ascii) : ParseIntError + N :=
  match ds with
  | [] => inr result
  | c :: ds' =>
      let mul := checked_u16 (result * 10) in
      match to_digit c with
      | None => inl InvalidDigit
      | Some x =>
          match mul with
          | None => inl PosOverflow
          | Some m =>
              match checked_u16 (m + x) with
              | None => inl PosOverflow
              | Some r => digits_loop r ds'
              end
          end
      end
  end.

Definition plus_sign : ascii := "+"%char.
Definition minus_sign : ascii := "-"%char.

(** [u16::from_str]: empty input, a lone sign, a leading [+] (accepted) and a
    leading [-] (an invalid digit for an unsigned type). *)
Definition u16_from_str (src : list ascii) : ParseIntError + N :=
  match src with
  | [] => inl Empty
  | [c] => if (Ascii.eqb c plus_sign || Ascii.eqb c minus_sign)
           then inl InvalidDigit else digits_loop 0 src
  | c :: rest => if Ascii.eqb c plus_sign then digits_loop 0 rest
                 else digits_loop 0 src
  end.

End Parse.

(* ------------------------------------------------------------------------- *)
(** ** [watch::parse_port] *)

(** [fn parse_port(contents: &str) -> Result<u16>]; the error is the
    [anyhow!("invalid forwarded port value ...")] built from the parse error. *)
Definition parse_port (contents : string) : Parse.ParseIntError + N :=
  Parse.u16_from_str (Parse.trim (list_ascii_of_string contents)).


(* ------------------------------------------------------------------------- *)
(** ** [error.rs]: error kinds and [classify_error] *)

Module ExitCode.
Inductive t := Success | Transient | Config | Unsupported.
End ExitCode.

(** [ExitCode as i32] *)
Definition exit_code_value (c : ExitCode.t) : N :=
  match c with
  | ExitCode.Success => 0 | ExitCode.Transient => 1
  | ExitCode.Config => 2 | ExitCode.Unsupported => 3
  end.

Inductive ConfigError :=
  | CfgIo (msg : string)
  | CfgToml (msg : string)
  | MissingConfig
  | MissingQbPassword
  | ForwardedPortUnavailable (what : string).

Inductive PortMapError :=
  | Pcp (msg : string)
  | PcpNotSupported (msg : string)
  | NatPmp (msg : string).

(** The typed root of an [anyhow::Error]: one of the crate's error types, or
    an untyped one ([anyhow!(...)] or a foreign error such as [io::Error]). *)
Inductive ErrorRoot :=
  | RootConfig (e : ConfigError)
  | RootUnsupported (msg : string)
  | RootPortMap (e : PortMapError)
  | RootQbit (msg : string)
  | RootOther (msg : string).

(** An [anyhow::Error]: its root and the [.context(..)] layers, outermost
    first.  [downcast_ref] looks through the context layers to the root. *)
Record Error := mkError { err_root : ErrorRoot; err_context : list string }.

Definition plain (r : ErrorRoot) : Error := mkError r [].

Definition with_context (ctx : string) (e : Error) : Error :=
  mkError (err_root e) (ctx :: err_context e).

Definition display_root (r : ErrorRoot) : string :=
  match r with
  | RootConfig (CfgIo m) => "failed to read config file: " ++ m
  | RootConfig (CfgToml m) => "failed to parse config file: " ++ m
  | RootConfig MissingConfig =>
      "no configuration file found; pass --config or create one in a standard location"
  | RootConfig MissingQbPassword =>
      "missing qbittorrent password (set in config or QB_PORT_SYNC_QB_PASSWORD)"
  | RootConfig (ForwardedPortUnavailable m) => "forwarded port path unavailable: " ++ m
  | RootUnsupported m => m
  | RootPortMap (Pcp m) => "pcp mapping failed: " ++ m
  | RootPortMap (PcpNotSupported m) => "pcp not supported: " ++ m
  | RootPortMap (NatPmp m) => "nat-pmp mapping failed: " ++ m
  | RootQbit m => m
  | RootOther m => m
  end%string.

(** The alternate display [{err:#}]: the context chain joined by [": "]. *)
Definition display_alt (e : Error) : string :=
  fold_right (fun c acc => c ++ ": " ++ acc)%string (display_root (err_root e))
    (err_context e).

(** [needle] occurs in [hay]. *)
Definition contains (needle hay : string) : bool :=
  match String.index 0 needle hay with Some _ => true | None => false end.

(** [classify_error] *)
Definition classify_error (e : Error) : ExitCode.t :=
  match err_root e with
  | RootConfig _ => ExitCode.Config
  | RootUnsupported _ => ExitCode.Unsupported
  | RootPortMap (PcpNotSupported _) => ExitCode.Unsupported
  | RootPortMap _ => ExitCode.Transient
  | _ => ExitCode.Transient
  end.

(* ------------------------------------------------------------------------- *)
(** ** [std::time::Duration] *)

Definition NANOS_PER_SEC : N := 1000000000.

Record Duration := mkDuration { d_secs : N; d_nanos : N }.

Definition from_secs (s : N) : Duration := mkDuration s 0.

Definition is_zero (d : Duration) : bool := (d_secs d =? 0) && (d_nanos d =? 0).

(** [impl Div<u32> for Duration] ([checked_div] with a non-zero divisor). *)
Definition div_u32 (d : Duration) (rhs : N) : Duration :=
  let secs := d_secs d / rhs in
  let carry := d_secs d - secs * rhs in
  let extra_nanos := carry * NANOS_PER_SEC / rhs in
  let nanos := d_nanos d / rhs + extra_nanos in
  mkDuration secs nanos.

(** The derived [Ord] of [Duration]: lexicographic on [(secs, nanos)]. *)
Definition duration_le (a b : Duration) : bool :=
  (d_secs a <? d_secs b) || ((d_secs a =? d_secs b) && (d_nanos a <=? d_nanos b)).

(** [Ord::max]: returns the second argument when the two are equal. *)
Definition duration_max (a b : Duration) : Duration :=
  if duration_le a b then b else a.

Definition as_nanos (d : Duration) : N := d_secs d * NANOS_PER_SEC + d_nanos d.

(* ------------------------------------------------------------------------- *)
(** ** Observable effects and the error/trace monad *)

Inductive Level := Debug | Info | Warn.

Inductive NatProtocol := NatTCP | NatUDP.

(** A JSON value as [serde_json::Value]; numbers are non-negative integers,
    negative integers or floats (whose value is not modelled). *)
Inductive JNumber := NumPosInt (n : N) | NumNegInt (magnitude : N) | NumFloat.

Inductive Value :=
  | VNull
  | VBool (b : bool)
  | VNumber (n : JNumber)
  | VString (s : string)
  | VArray (xs : list Value)
  | VObject (m : list (string * Value)).

Definition JMap := list (string * Value).

Inductive Event :=
  | ELog (lvl : Level) (msg : string)
  | ETryPcp                          (** entering [try_pcp] *)
  | ETryNatPmp                       (** entering [try_natpmp] *)
  | EDiscoverGateway                 (** [default_net::get_default_gateway()] *)
  | ENatPmpRequest (proto : NatProtocol) (internal external lifetime : N)
                                     (** [send_port_mapping_request] *)
  | EQbFetchInterfaces               (** GET networkInterfaceList *)
  | EQbSetPreferences (payload : JMap) (** POST setPreferences *)
  | EQbGetPreferences                (** GET preferences *)
  | EApplyPort (port : N)            (** [client.update_listen_port(port)] *)
  | EConfigLoad                      (** [Config::load] *)
  | EQbLogin                         (** POST auth/login *)
  | ESync                            (** [run_once] / [run_daemon] *)
  | ESleep (d : Duration).           (** [time::sleep(d)] in a [select!] *)

(** A computation returns its trace and either an error or a value. *)
Definition M (A : Type) : Type := list Event * (Error + A).

Definition ret {A} (a : A) : M A := ([], inr a).
Definition throw {A} (e : Error) : M A := ([], inl e).
Definition emit (ev : Event) : M unit := ([ev], inr tt).
Definition log (lvl : Level) (msg : string) : M unit := emit (ELog lvl msg).

Definition bind {A B} (m : M A) (k : A -> M B) : M B :=
  match m with
  | (t, inl e) => (t, inl e)
  | (t, inr a) => let (t', r) := k a in (t ++ t', r)
  end.

(** [match m { Ok(a) => ok(a), Err(e) => err(e) }] *)
Definition catch {A B} (m : M A) (ok : A -> M B) (err : Error -> M B) : M B :=
  match m with
  | (t, inl e) => let (t', r) := err e in (t ++ t', r)
  | (t, inr a) => let (t', r) := ok a in (t ++ t', r)
  end.

(** A [Result] computed without effects. *)
Definition of_result {A} (r : Error + A) : M A := ([], r).

Notation "x <- m ;; k" := (bind m (fun x => k))
  (at level 61, m at next level, right associativity).
Notation "m ;;; k" := (bind m (fun _ => k))
  (at level 61, right associativity).

Definition trace_of {A} (m : M A) : list Event := fst m.
Definition result_of {A} (m : M A) : Error + A := snd m.

(* ------------------------------------------------------------------------- *)
(** ** [serde_json] helpers *)

Definition string_trim (s : string) : string :=
  string_of_list_ascii (Parse.trim (list_ascii_of_string s)).

(** [Map::insert]: replaces the value of a present key, otherwise adds it. *)
Fixpoint map_insert (k : string) (v : Value) (m : JMap) : JMap :=
  match m with
  | [] => [(k, v)]
  | (k', v') :: m' =>
      if String.eqb k k' then (k, v) :: m' else (k', v') :: map_insert k v m'
  end.

Fixpoint map_get (k : string) (m : JMap) : option Value :=
  match m with
  | [] => None
  | (k', v) :: m' => if String.eqb k k' then Some v else map_get k m'
  end.

(** [Value::get(&str)]: [None] on anything but an object. *)
Definition value_get (k : string) (v : Value) : option Value :=
  match v with VObject m => map_get k m | _ => None end.

Definition U64_MAX : N := 18446744073709551615.

Definition as_u64 (v : Value) : option N :=
  match v with
  | VNumber (NumPosInt n) => if n <=? U64_MAX then Some n else None
  | _ => None
  end.

Definition as_bool (v : Value) : option bool :=
  match v with VBool b => Some b | _ => None end.

(** [u16::try_from(u64)] *)
Definition u16_try_from (n : N) : option N :=
  if n <=? Parse.U16_MAX then Some n else None.

Definition obind {A B} (o : option A) (f : A -> option B) : option B :=
  match o with Some a => f a | None => None end.

(* ------------------------------------------------------------------------- *)
(** ** [qbit.rs]: [QbitClient::set_listen_port] *)

Module Qbit.

Record NetworkInterfaceItem := mkItem {
  item_name : string;
  item_interface : option string;
  item_id : option string }.

Record InterfaceSelection := mkSelection { sel_name : string; sel_id : option string }.

Record PortUpdateResult := mkUpdate {
  detected_port : N;
  verified : bool;
  random_port : option bool;
  upnp : option bool }.

(** The answers of the qBittorrent Web API for one [set_listen_port] call:
    whether [base_url.join(..)] succeeds, the interface list (or a failure),
    the outcome of the preference update and the queried preferences. *)
Record Server := mkServer {
  endpoint_ok : bool;
  interfaces : option (list NetworkInterfaceItem);
  post_error : option string;
  preferences : Error + Value }.

Definition opt_str_eqb (o : option string) (s : string) : bool :=
  match o with Some x => String.eqb x s | None => false end.

(** [fn matches_interface] *)
Definition matches_interface (item : NetworkInterfaceItem) (requested : string) : bool :=
  let requested := string_trim requested in
  if String.eqb requested "" then false
  else String.eqb (item_name item) requested
       || opt_str_eqb (item_interface item) requested
       || opt_str_eqb (item_id item) requested.

Definition endpoint (srv : Server) (path : string) : M unit :=
  if endpoint_ok srv then ret tt
  else throw (plain (RootOther ("invalid endpoint path " ++ path)%string)).

(** [fn fetch_interfaces] *)
Definition fetch_interfaces (srv : Server) : M (list NetworkInterfaceItem) :=
  endpoint srv "api/v2/app/networkInterfaceList" ;;;
  emit EQbFetchInterfaces ;;;
  match interfaces srv with
  | Some items => ret items
  | None => throw (plain (RootQbit "unexpected response status"))
  end.

Definition or_else {A} (o : option A) (o' : option A) : option A :=
  match o with Some _ => o | None => o' end.

(** [fn resolve_interface]: a failed fetch is logged and yields [None]. *)
Definition resolve_interface (srv : Server) (requested : string)
  : M (option InterfaceSelection) :=
  catch (fetch_interfaces srv)
    (fun items =>
       match filter (fun it => matches_interface it requested) items with
       | item :: _ =>
           ret (Some (mkSelection (item_name item)
                        (or_else (item_id item) (item_interface item))))
       | [] => ret None
       end)
    (fun _ => log Warn "failed to fetch qBittorrent network interfaces" ;;; ret None).

(** [fn post_preferences] *)
Definition post_preferences (srv : Server) (payload : JMap) : M unit :=
  endpoint srv "api/v2/app/setPreferences" ;;;
  emit (EQbSetPreferences payload) ;;;
  match post_error srv with
  | Some msg => throw (plain (RootQbit msg))
  | None => log Debug "submitted qBittorrent preference update"
  end.

(** [fn get_preferences] *)
Definition get_preferences (srv : Server) : M Value :=
  endpoint srv "api/v2/app/preferences" ;;;
  emit EQbGetPreferences ;;;
  match preferences srv with
  | inl e => throw e
  | inr v => ret v
  end.

(** [bind_interface.map(str::trim).filter(|s| !s.is_empty())] *)
Definition bind_filter (bind_interface : option string) : option string :=
  match bind_interface with
  | Some s => let t := string_trim s in if String.eqb t "" then None else Some t
  | None => None
  end.

(** The construction of [payload] at the start of [set_listen_port]. *)
Definition build_payload (srv : Server) (port : N) (bind_interface : option string)
  : M JMap :=
  let payload0 :=
    map_insert "upnp" (VBool false)
      (map_insert "random_port" (VBool false)
         (map_insert "listen_port" (VNumber (NumPosInt port)) [])) in
  match bind_filter bind_interface with
  | Some interface =>
      selection <- resolve_interface srv interface ;;
      match selection with
      | Some sel =>
          let p1 := map_insert "network_interface" (VString (sel_name sel)) payload0 in
          match sel_id sel with
          | Some id => ret (map_insert "network_interface_id" (VString id) p1)
          | None => ret p1
          end
      | None =>
          log Warn "requested bind interface not found on qBittorrent; continuing without binding" ;;;
          ret payload0
      end
  | None => ret payload0
  end.

(** [async fn set_listen_port(&self, port: u16, bind_interface: Option<&str>)] *)
Definition set_listen_port (srv : Server) (port : N) (bind_interface : option string)
  : M PortUpdateResult :=
  payload <- build_payload srv port bind_interface ;;
  post_preferences srv payload ;;;
  prefs <- get_preferences srv ;;
  detected <-
    match obind (obind (value_get "listen_port" prefs) as_u64) u16_try_from with
    | Some d => ret d
    | None => throw (plain (RootOther "qBittorrent preferences missing listen_port"))
    end ;;
  let random := obind (value_get "random_port" prefs) as_bool in
  let upnp := obind (value_get "upnp" prefs) as_bool in
  let verified := (detected =? port) in
  (if verified then log Info "qBittorrent listen port verified"
   else log Warn "qBittorrent listen port mismatch after update") ;;;
  ret (mkUpdate detected verified random upnp).

End Qbit.

(* ------------------------------------------------------------------------- *)
(** ** [portmap/mod.rs] and [portmap/natpmp.rs] *)

Module Portmap.

Inductive PortProtocol := TCP | UDP | BOTH.

Inductive Protocol := Tcp | Udp | Both.

Inductive Strategy := StratPcp | StratNatPmp.

Inductive IpAddr := V4 (a : N) | V6 (a : N).

(** [config::PortMapConfig] *)
Record PortMapConfig := mkPortMapConfig {
  internal_port : N;
  protocol : PortProtocol;
  refresh_secs : N;
  autodiscover_gateway : bool;
  gateway : option string }.

Record MapResult := mkMapResult {
  external_port : N;
  ttl : option Duration;
  strategy : Strategy }.

Record MapRequest := mkMapRequest {
  req_protocol : Protocol;
  req_gateway : IpAddr;
  req_internal_port : N;
  req_external_preference : option N;
  req_refresh_secs : N }.

(** What the host and the gateway answer during one negotiation:
    - [pcp_feature]: whether the crate is built with the [pcp] feature;
    - [pcp_map]: the PCP negotiation [pcp::map] of that build (any trace, any
      outcome);
    - [parse_ip]: [IpAddr::from_str];
    - [default_gateway]: [default_net::get_default_gateway()];
    - [random_port]: [rng.gen_range(49152..=65535)];
    - [natpmp_new_error], [natpmp_send_error]: failures of
      [Natpmp::new_with] and [send_port_mapping_request];
    - [natpmp_response]: the first definitive answer of the
      [read_response_or_retry] loop (its [TRYAGAIN] retries and non-mapping
      answers are skipped by the loop): an error message or the public port
      and lifetime of a UDP/TCP mapping response. *)
Record Host := mkHost {
  pcp_feature : bool;
  pcp_map : MapRequest -> M MapResult;
  parse_ip : string -> option IpAddr;
  default_gateway : string + IpAddr;
  random_port : N;
  natpmp_new_error : option string;
  natpmp_send_error : option string;
  natpmp_response : string + (N * Duration) }.

(** [fn protocol_from_config] *)
Definition protocol_from_config (p : PortProtocol) : Protocol :=
  match p with TCP => Tcp | UDP => Udp | BOTH => Both end.

(** [fn effective_protocol] *)
Definition effective_protocol (p : Protocol) : Protocol :=
  match p with Both => Tcp | other => other end.

(** [pub(crate) fn mapping_protocol] *)
Definition mapping_protocol (p : Protocol) : Protocol := effective_protocol p.

(** [fn build_result] *)
Definition build_result (external_port : N) (ttl : option Duration) (s : Strategy)
  : MapResult := mkMapResult external_port ttl s.

(** [fn resolve_ports] *)
Definition resolve_ports (h : Host) (config : PortMapConfig) : N * option N :=
  if internal_port config =? 0 then (random_port h, None)
  else (internal_port config, Some (internal_port config)).

(** The autodiscovery tail of [fn resolve_gateway]. *)
Definition discover_or_fail (h : Host) (config : PortMapConfig) : M IpAddr :=
  if autodiscover_gateway config then
    emit EDiscoverGateway ;;;
    match default_gateway h with
    | inl err => throw (plain (RootOther
                   ("failed to autodiscover default gateway: " ++ err)%string))
    | inr ip => ret ip
    end
  else throw (plain (RootOther "gateway discovery disabled and no gateway configured")).

(** [fn resolve_gateway] *)
Definition resolve_gateway (h : Host) (config : PortMapConfig) : M IpAddr :=
  match gateway config with
  | Some g =>
      if negb (String.eqb (string_trim g) "") then
        match parse_ip h g with
        | Some ip => ret ip
        | None => throw (with_context "invalid configured gateway address"
                          (plain (RootOther "invalid IP address syntax")))
        end
      else discover_or_fail h config
  | None => discover_or_fail h config
  end.

(** [fn build_request] *)
Definition build_request (h : Host) (config : PortMapConfig) : M MapRequest :=
  let protocol := protocol_from_config (protocol config) in
  gw <- resolve_gateway h config ;;
  let (internal, pref) := resolve_ports h config in
  ret (mkMapRequest protocol gw internal pref (refresh_secs config)).

(** [async fn try_pcp] *)
Definition try_pcp (h : Host) (request : MapRequest) : M MapResult :=
  emit ETryPcp ;;;
  if pcp_feature h then pcp_map h request
  else throw (plain (RootPortMap
                (PcpNotSupported "pcp feature not enabled at compile time"))).

(** [request.refresh_secs as u32] *)
Definition as_u32 (n : N) : N := n mod 4294967296.

(** [natpmp::map] *)
Definition natpmp_map (h : Host) (request : MapRequest) : M MapResult :=
  let protocol := mapping_protocol (req_protocol request) in
  let internal := req_internal_port request in
  let external := match req_external_preference request with
                  | Some e => e | None => 0 end in
  let lifetime := as_u32 (req_refresh_secs request) in
  match req_gateway request with
  | V6 _ => throw (plain (RootPortMap (NatPmp "NAT-PMP requires an IPv4 gateway address")))
  | V4 _ =>
      match natpmp_new_error h with
      | Some msg => throw (plain (RootPortMap (NatPmp msg)))
      | None =>
          let nat_protocol := match protocol with
                              | Tcp | Both => NatTCP
                              | Udp => NatUDP end in
          let requested_lifetime := if lifetime =? 0 then 0 else lifetime in
          emit (ENatPmpRequest nat_protocol internal external requested_lifetime) ;;;
          match natpmp_send_error h with
          | Some msg => throw (plain (RootPortMap (NatPmp msg)))
          | None =>
              match natpmp_response h with
              | inl msg => throw (plain (RootPortMap (NatPmp msg)))
              | inr (public_port, lt) =>
                  let ttl := if is_zero lt then None else Some lt in
                  ret (build_result public_port ttl StratNatPmp)
              end
          end
      end
  end.

(** [async fn try_natpmp] *)
Definition try_natpmp (h : Host) (request : MapRequest) : M MapResult :=
  emit ETryNatPmp ;;; natpmp_map h request.

(** The log line of the [Err] arm, chosen by [downcast_ref::<PortMapError>]. *)
Definition pcp_failure_log (err : Error) : M unit :=
  match err_root err with
  | RootPortMap (PcpNotSupported _) => log Debug "PCP not supported, falling back to NAT-PMP"
  | RootPortMap (Pcp msg) => log Warn ("PCP mapping failed: " ++ msg)%string
  | _ => log Warn ("PCP mapping error: " ++ display_alt err)%string
  end.

(** [pub async fn map_prefer_pcp_fallback_natpmp] *)
Definition map_prefer_pcp_fallback_natpmp (h : Host) (config : PortMapConfig)
  : M MapResult :=
  request <- build_request h config ;;
  catch (try_pcp h request)
    (fun result => log Info "acquired PCP mapping" ;;; ret result)
    (fun err =>
       pcp_failure_log err ;;;
       result <- try_natpmp h request ;;
       log Info "acquired NAT-PMP mapping" ;;;
       ret result).

(** [pub async fn map_with_pcp] *)
Definition map_with_pcp (h : Host) (config : PortMapConfig) : M MapResult :=
  request <- build_request h config ;; try_pcp h request.

(** [pub async fn map_with_natpmp] *)
Definition map_with_natpmp (h : Host) (config : PortMapConfig) : M MapResult :=
  request <- build_request h config ;; try_natpmp h request.

End Portmap.

(* ------------------------------------------------------------------------- *)
(** ** Paths, configuration and the platform *)

(** A [PathBuf]: absolute or relative, and its normal components. *)
Record Path := mkPath { path_abs : bool; path_comps : list string }.

(** [Path::parent]: [None] for ["/"] and [""], the path without its last
    component otherwise (so ["a"] has the parent [""]). *)
Definition parent (p : Path) : option Path :=
  match path_comps p with
  | [] => None
  | _ => Some (mkPath (path_abs p) (removelast (path_comps p)))
  end.

(** [PathBuf::push] of a relative path. *)
Definition push (p : Path) (rel : list string) : Path :=
  mkPath (path_abs p) (path_comps p ++ rel).

Fixpoint join_slash (cs : list string) : string :=
  match cs with
  | [] => ""
  | [c] => c
  | c :: cs' => c ++ "/" ++ join_slash cs'
  end%string.

(** [Path::display] *)
Definition display_path (p : Path) : string :=
  ((if path_abs p then "/" else "") ++ join_slash (path_comps p))%string.

Fixpoint digits_of_N (fuel : nat) (n : N) (acc : string) : string :=
  match fuel with
  | O => acc
  | Datatypes.S fuel' =>
      let d := ascii_of_N (48 + n mod 10) in
      if n <? 10 then String d acc
      else digits_of_N fuel' (n / 10) (String d acc)
  end.

(** Decimal rendering of an [N] ([format!("{uid}")]). *)
Definition string_of_N (n : N) : string := digits_of_N 64 n "".

Record QbittorrentConfig := mkQbConfig {
  base_url : string;
  username : string;
  password : option string }.

(** [config::Config] after [post_process]. *)
Record Config := mkConfig {
  qbittorrent : QbittorrentConfig;
  forwarded_port_path : option Path;
  portmap : Portmap.PortMapConfig }.

(** The platform: [cfg(target_os = "linux")], [XDG_RUNTIME_DIR], the uid of
    the process and which paths exist ([Path::exists]). *)
Record Platform := mkPlatform {
  target_linux : bool;
  xdg_runtime_dir : option Path;
  current_uid : N;
  fs_exists : Path -> bool }.

(** [fn linux_default_forwarded_port_path] *)
Definition linux_default_forwarded_port_path (pl : Platform) : option Path :=
  match xdg_runtime_dir pl with
  | Some runtime_dir => Some (push runtime_dir ["Proton"; "VPN"; "forwarded_port"])
  | None => Some (mkPath true ["run"; "user"; string_of_N (current_uid pl);
                              "Proton"; "VPN"; "forwarded_port"])
  end%string.

(** [Config::resolved_forwarded_port_path] *)
Definition resolved_forwarded_port_path (config : Config) (pl : Platform) : option Path :=
  match forwarded_port_path config with
  | Some path => Some path
  | None =>
      if target_linux pl then
        match linux_default_forwarded_port_path pl with
        | Some path => Some path
        | None => None
        end
      else None
  end.

(** [fn empty_string_as_none], after [Option::<String>::deserialize]. *)
Definition empty_string_as_none (opt : option string) : option string :=
  match opt with
  | Some s =>
      let trimmed := string_trim s in
      if String.eqb trimmed "" then None else Some trimmed
  | None => None
  end.


(** [Path::join]: an absolute argument replaces the base. *)
Definition join (base rel : Path) : Path :=
  if path_abs rel then rel else push base (path_comps rel).

(** [Config::post_process]; [source] is the path the configuration was read
    from. *)
Definition post_process (source : option Path) (config : Config) : Config :=
  match forwarded_port_path config with
  | Some path =>
      if negb (path_abs path) then
        match match source with Some p => parent p | None => None end with
        | Some src => mkConfig (qbittorrent config) (Some (join src path)) (portmap config)
        | None => config
        end
      else config
  | None => config
  end.

(** [fn find_config]: [config_dir] is [BaseDirs::new().map(|b| b.config_dir())],
    [target_macos] is [cfg(target_os = "macos")]. *)
Definition find_config (cli_path : option Path) (pl : Platform) (target_macos : bool)
  (config_dir : option Path) : M Path :=
  match cli_path with
  | Some path => ret path
  | None =>
      let candidates :=
        List.app
          (if target_linux pl then
             List.app
               (match config_dir with
                | Some base => [push base ["qb-port-sync"; "config.toml"]%string]
                | None => []
                end)
               [mkPath true ["etc"; "qb-port-sync"; "config.toml"]%string]
           else [])
          (if target_macos then
             [mkPath true ["Library"; "Application Support"; "qb-port-sync";
                           "config.toml"]%string]
           else []) in
      match find (fs_exists pl) candidates with
      | Some candidate => log Debug "using configuration file" ;;; ret candidate
      | None => throw (plain (RootConfig MissingConfig))
      end
  end.

(* ------------------------------------------------------------------------- *)
(** ** [main.rs]: strategy resolution *)

Inductive StrategyOpt := OptFile | OptPcp | OptNatpmp | OptAuto.

Inductive PortmapMode := ModeAuto | ModePcpOnly | ModeNatOnly.

Inductive StrategyPlan := PlanFile (path : Path) | PlanPortmap (mode : PortmapMode).

(** [fn prefer_file_strategy] *)
Definition prefer_file_strategy (config : Config) (pl : Platform) : bool :=
  if target_linux pl then
    match resolved_forwarded_port_path config pl with
    | Some path =>
        if fs_exists pl path then true
        else match parent path with
             | Some par => fs_exists pl par
             | None => false
             end
    | None => false
    end
  else false.

(** [fn resolve_forwarded_port_path] *)
Definition resolve_forwarded_port_path (config : Config) (pl : Platform) : Error + Path :=
  match resolved_forwarded_port_path config pl with
  | None => inl (plain (RootUnsupported
                  "forwarded port file path unavailable on this platform"))
  | Some path =>
      match parent path with
      | Some par =>
          if fs_exists pl par then inr path
          else inl (plain (RootConfig (ForwardedPortUnavailable (display_path par))))
      | None => inl (plain (RootConfig (ForwardedPortUnavailable (display_path path))))
      end
  end.

(** [fn resolve_plan] *)
Definition resolve_plan (strategy : StrategyOpt) (config : Config) (pl : Platform)
  : Error + StrategyPlan :=
  match strategy with
  | OptFile =>
      match resolve_forwarded_port_path config pl with
      | inl e => inl e
      | inr path => inr (PlanFile path)
      end
  | OptPcp => inr (PlanPortmap ModePcpOnly)
  | OptNatpmp => inr (PlanPortmap ModeNatOnly)
  | OptAuto =>
      if prefer_file_strategy config pl then
        match resolve_forwarded_port_path config pl with
        | inl e => inl e
        | inr path => inr (PlanFile path)
        end
      else inr (PlanPortmap ModeAuto)
  end.

(* ------------------------------------------------------------------------- *)
(** ** [main.rs]: one cycle of the port-mapping daemon *)

(** The [let map = match mode { .. }] of [portmap_cycle] (and of [run_once]). *)
Definition negotiate (h : Portmap.Host) (mode : PortmapMode) (pm : Portmap.PortMapConfig)
  : M Portmap.MapResult :=
  match mode with
  | ModeAuto => Portmap.map_prefer_pcp_fallback_natpmp h pm
  | ModePcpOnly => Portmap.map_with_pcp h pm
  | ModeNatOnly => Portmap.map_with_natpmp h pm
  end.

(** [async fn portmap_cycle]; [bind_interface] is [config.bind_interface()]
    and the [metrics] feature is off. *)
Definition portmap_cycle (h : Portmap.Host) (srv : Qbit.Server) (mode : PortmapMode)
  (config : Config) (bind_interface : option string) : M Duration :=
  map <- negotiate h mode (portmap config) ;;
  log Info "port mapping obtained" ;;;
  update <- Qbit.set_listen_port srv (Portmap.external_port map) bind_interface ;;
  (if negb (Qbit.verified update)
   then log Warn "listen port verification failed" else ret tt) ;;;
  let delay :=
    match Portmap.ttl map with
    | Some t => duration_max (div_u32 t 2) (from_secs 10)
    | None => from_secs (Portmap.refresh_secs (portmap config))
    end in
  log Info "next mapping refresh" ;;;
  ret delay.

(* ------------------------------------------------------------------------- *)
(** ** [watch.rs]: [run_file_watcher] *)

Module Watch.

Fixpoint comps_eqb (a b : list string) : bool :=
  match a, b with
  | [], [] => true
  | x :: a', y :: b' => String.eqb x y && comps_eqb a' b'
  | _, _ => false
  end.

(** [impl PartialEq for Path] on the components. *)
Definition path_eqb (p q : Path) : bool :=
  Bool.eqb (path_abs p) (path_abs q) && comps_eqb (path_comps p) (path_comps q).

(** [pub fn read_forwarded_port_once]; [read_file] is [fs::read_to_string]. *)
Definition read_forwarded_port_once (config : Config) (pl : Platform)
  (read_file : Path -> Error + string) : Error + N :=
  match resolved_forwarded_port_path config pl with
  | None => inl (plain (RootOther "forwarded port path not configured"))
  | Some path =>
      match read_file path with
      | inl e => inl e
      | inr contents =>
          match parse_port contents with
          | inr port => inr port
          | inl _ => inl (plain (RootOther "invalid forwarded port value"))
          end
      end
  end.

(** What the receiving end of the watcher channel and the shutdown future
    yield, in the order [tokio::select!] picks them.  For a notification, the
    event's paths and the file contents [handle_event] reads after its 250 ms
    sleep ([None]: the read failed). *)
Inductive WatchEvent :=
  | WShutdown
  | WNotify (paths : list Path) (content : option string)
  | WError (msg : string).

(** The rest of the host: a failure of [create_watcher]/[watcher.watch], the
    contents read at startup, and the successive results of the client's
    [update_listen_port] calls ([Ok(())] once the list is exhausted). *)
Record WatchHost := mkWatchHost {
  watch_error : option string;
  initial_content : option string;
  client_results : list (Error + unit) }.

(** [fn is_relevant] *)
Definition is_relevant (paths : list Path) (watched_path : Path) : bool :=
  match paths with
  | [] => true
  | _ => existsb (fun p => path_eqb p watched_path
                          || match parent watched_path with
                             | Some dir => path_eqb p dir
                             | None => false
                             end) paths
  end.

(** [async fn read_port_async], [Ok] as [Some]. *)
Definition read_port (content : option string) : option N :=
  match content with
  | None => None
  | Some s => match parse_port s with inr p => Some p | inl _ => None end
  end.

(** [async fn handle_event] (the sleep is not observable here). *)
Definition handle_event (content : option string) : M (option N) :=
  match read_port content with
  | Some port => ret (Some port)
  | None => log Debug "failed to read forwarded port" ;;; ret None
  end.

(** [client.update_listen_port(port).await?]: the client's error is
    propagated as it is. *)
Definition update_listen_port (port : N) (results : list (Error + unit))
  : M (list (Error + unit)) :=
  emit (EApplyPort port) ;;;
  match results with
  | inl e :: _ => throw e
  | inr _ :: rest => ret rest
  | [] => ret []
  end.

Definition opt_N_eqb (a b : option N) : bool :=
  match a, b with
  | Some x, Some y => N.eqb x y
  | None, None => true
  | _, _ => false
  end.

(** The [loop { tokio::select! { .. } }] of [run_file_watcher]; the end of
    the event list is the [else => break] arm. *)
Fixpoint watch_loop (path : Path) (last_port : option N) (results : list (Error + unit))
  (events : list WatchEvent) : M unit :=
  match events with
  | [] => ret tt
  | WShutdown :: _ => log Info "stopping forwarded port watcher"
  | WError _ :: rest => log Warn "watcher error" ;;; watch_loop path last_port results rest
  | WNotify paths content :: rest =>
      if negb (is_relevant paths path) then watch_loop path last_port results rest
      else
        port <- handle_event content ;;
        match port with
        | Some port =>
            if negb (opt_N_eqb last_port (Some port)) then
              log Info "forwarded port changed" ;;;
              results' <- update_listen_port port results ;;
              watch_loop path (Some port) results' rest
            else
              log Debug "forwarded port unchanged" ;;;
              watch_loop path last_port results rest
        | None => watch_loop path last_port results rest
        end
  end.

(** [pub async fn run_file_watcher] *)
Definition run_file_watcher (config : Config) (pl : Platform) (wh : WatchHost)
  (events : list WatchEvent) : M unit :=
  match resolved_forwarded_port_path config pl with
  | None => throw (plain (RootOther "forwarded port path not configured"))
  | Some path =>
      _watch_target <-
        (if fs_exists pl path then ret path
         else match parent path with
              | Some dir => ret dir
              | None => throw (plain (RootOther "forwarded port path has no parent directory"))
              end) ;;
      match watch_error wh with
      | Some msg => throw (plain (RootOther msg))
      | None =>
          match read_port (initial_content wh) with
          | Some port =>
              log Info "initial forwarded port" ;;;
              results <- update_listen_port port (client_results wh) ;;
              watch_loop path (Some port) results events
          | None => watch_loop path None (client_results wh) events
          end
      end
  end.

(** The ports handed to the client, in order. *)
Fixpoint applied_ports (t : list Event) : list N :=
  match t with
  | [] => []
  | EApplyPort p :: t' => p :: applied_ports t'
  | _ :: t' => applied_ports t'
  end.

(** No two consecutive elements are equal. *)
Fixpoint no_repeat (l : list N) : Prop :=
  match l with
  | x :: ((y :: _) as l') => x <> y /\ no_repeat l'
  | _ => True
  end.

(** A watcher event that reads no port other than [p]. *)
Definition reads_only (p : N) (ev : WatchEvent) : bool :=
  match ev with
  | WNotify _ content =>
      match read_port content with Some q => N.eqb q p | None => true end
  | _ => true
  end.

End Watch.

(* ------------------------------------------------------------------------- *)
(** ** [main.rs]: [run] *)

Module Cli.

(** [struct Cli] *)
Record Cli := mkCli {
  config : option Path;
  once : bool;
  strategy : StrategyOpt;
  json : bool;
  verbose : N }.

(** [report::JsonReport] *)
Record JsonReport := mkReport {
  r_strategy : string;
  r_detected_port : option N;
  r_applied : bool;
  r_verified : bool;
  r_note : string;
  r_error : option string }.

(** [JsonReport::new] *)
Definition report_new (strategy : string) : JsonReport :=
  mkReport strategy None false false "" None.

Definition set_error (r : JsonReport) (e : option string) : JsonReport :=
  mkReport (r_strategy r) (r_detected_port r) (r_applied r) (r_verified r) (r_note r) e.

Definition set_note (r : JsonReport) (n : string) : JsonReport :=
  mkReport (r_strategy r) (r_detected_port r) (r_applied r) (r_verified r) n (r_error r).

Record StrategyOutcome := mkOutcome {
  o_strategy : string;
  o_detected_port : option N;
  o_verified : bool;
  o_note : option string }.

(** [fn strategy_opt_label] *)
Definition strategy_opt_label (opt : StrategyOpt) : string :=
  match opt with
  | OptFile => "file" | OptPcp => "pcp" | OptNatpmp => "natpmp" | OptAuto => "auto"
  end.

(** The outcomes of the steps of [run] after its first check:
    [Config::load], [qbittorrent_password], [Url::parse], [QbitClient::new],
    [login], and [run_once] / [run_daemon] on the resolved plan. *)
Record RunHost := mkRunHost {
  load_config : Error + Config;
  qb_password : Error + string;
  url_parse : option Error;
  client_new : option Error;
  login : option Error;
  platform : Platform;
  run_once : StrategyPlan -> Error + StrategyOutcome;
  run_daemon : StrategyPlan -> option Error }.

(** [Result<(JsonReport, ExitCode, bool), (JsonReport, anyhow::Error, ExitCode, bool)>],
    with [Err] on the left. *)
Definition RunResult : Type :=
  (JsonReport * Error * ExitCode.t * bool) + (JsonReport * ExitCode.t * bool).

Definition fail_with (cli : Cli) (err : Error) (code : ExitCode.t) : RunResult :=
  inl (set_error (report_new (strategy_opt_label (strategy cli)))
         (Some (display_alt err)), err, code, json cli).

Definition plan_label (plan : StrategyPlan) : string :=
  match plan with
  | PlanFile _ => "file"
  | PlanPortmap ModeAuto => "auto"
  | PlanPortmap ModePcpOnly => "pcp"
  | PlanPortmap ModeNatOnly => "natpmp"
  end.

(** [async fn run(cli: Cli)]: the trace lists the steps that touch the
    outside world ([EConfigLoad], [EQbLogin], [ESync]); the [metrics] feature
    is off. *)
Definition run (cli : Cli) (rh : RunHost) : list Event * RunResult :=
  if json cli && negb (once cli) then
    let msg := "--json is only supported with --once mode"%string in
    let report := set_error (set_note (report_new (strategy_opt_label (strategy cli)))
                                      "json mode requires --once") (Some msg) in
    ([], inl (report, plain (RootUnsupported msg), ExitCode.Config, true))
  else
    match load_config rh with
    | inl err => ([EConfigLoad], fail_with cli err (classify_error err))
    | inr cfg =>
        match qb_password rh with
        | inl err => ([EConfigLoad], fail_with cli err (classify_error err))
        | inr _ =>
            match url_parse rh with
            | Some err => ([EConfigLoad], fail_with cli err ExitCode.Config)
            | None =>
                match client_new rh with
                | Some err => ([EConfigLoad], fail_with cli err (classify_error err))
                | None =>
                    match login rh with
                    | Some err => ([EConfigLoad; EQbLogin],
                                   fail_with cli err (classify_error err))
                    | None =>
                        match resolve_plan (strategy cli) cfg (platform rh) with
                        | inl err => ([EConfigLoad; EQbLogin],
                                      fail_with cli err (classify_error err))
                        | inr plan =>
                            if once cli then
                              match run_once rh plan with
                              | inr o =>
                                  let report := mkReport (o_strategy o) (o_detected_port o)
                                                  true (o_verified o)
                                                  (match o_note o with
                                                   | Some n => n | None => "" end) None in
                                  ([EConfigLoad; EQbLogin; ESync],
                                   inr (report, ExitCode.Success, json cli))
                              | inl err =>
                                  ([EConfigLoad; EQbLogin; ESync],
                                   inl (set_error (report_new (plan_label plan))
                                          (Some (display_alt err)),
                                        err, classify_error err, json cli))
                              end
                            else
                              match run_daemon rh plan with
                              | None =>
                                  ([EConfigLoad; EQbLogin; ESync],
                                   inr (set_note (report_new "daemon") "exited on signal",
                                        ExitCode.Success, json cli))
                              | Some err =>
                                  ([EConfigLoad; EQbLogin; ESync],
                                   inl (set_error (report_new "daemon")
                                          (Some (display_alt err)),
                                        err, classify_error err, json cli))
                              end
                        end
                    end
                end
            end
        end
    end.

(** The exit code [main] passes to [process::exit]. *)
Definition exit_code (r : RunResult) : N :=
  match r with
  | inl (_, _, code, _) => exit_code_value code
  | inr (_, code, _) => exit_code_value code
  end.

End Cli.

(* ------------------------------------------------------------------------- *)
(** ** [main.rs]: [run_once], the daemons and their helpers *)

Module Main.

(** [fn map_strategy_label] *)
Definition map_strategy_label (mode : PortmapMode) (result_strategy : Portmap.Strategy)
  : string :=
  match mode with
  | ModePcpOnly => "pcp"
  | ModeNatOnly => "natpmp"
  | ModeAuto =>
      match result_strategy with
      | Portmap.StratPcp => "pcp"
      | Portmap.StratNatPmp => "natpmp"
      end
  end%string.

(** [Vec<String>::join(sep)] *)
Fixpoint join_sep (sep : string) (xs : list string) : string :=
  match xs with
  | [] => ""
  | [x] => x
  | x :: xs' => x ++ sep ++ join_sep sep xs'
  end%string.

(** [fn build_note] *)
Definition build_note (update : Qbit.PortUpdateResult) (ttl : option Duration)
  : option string :=
  let notes :=
    List.app
      (match ttl with
       | Some t => [("ttl=" ++ string_of_N (d_secs t) ++ "s")%string]
       | None => []
       end)
      (List.app
         (match Qbit.random_port update with
          | Some true => ["random_port still enabled"%string]
          | _ => []
          end)
         (match Qbit.upnp update with
          | Some true => ["upnp still enabled"%string]
          | _ => []
          end)) in
  match notes with
  | [] => None
  | _ => Some (join_sep "; " notes)
  end.

(** [async fn run_once]; [bind_interface] is [config.bind_interface()], the
    [metrics] feature is off. *)
Definition run_once (h : Portmap.Host) (srv : Qbit.Server) (plan : StrategyPlan)
  (config : Config) (pl : Platform) (read_file : Path -> Error + string)
  (bind_interface : option string) : M Cli.StrategyOutcome :=
  match plan with
  | PlanFile path =>
      log Debug "reading forwarded port" ;;;
      port <- of_result (Watch.read_forwarded_port_once config pl read_file) ;;
      update <- Qbit.set_listen_port srv port bind_interface ;;
      ret (Cli.mkOutcome "file" (Some (Qbit.detected_port update)) (Qbit.verified update)
             (build_note update None))
  | PlanPortmap mode =>
      map_result <- negotiate h mode (portmap config) ;;
      let strategy_label := map_strategy_label mode (Portmap.strategy map_result) in
      update <- Qbit.set_listen_port srv (Portmap.external_port map_result) bind_interface ;;
      ret (Cli.mkOutcome strategy_label (Some (Qbit.detected_port update))
             (Qbit.verified update) (build_note update (Portmap.ttl map_result)))
  end.

(** The [loop { select! { .. } }] of [run_file_daemon]: the ports received
    from the watcher, each with the answers of qBittorrent to its update; the
    end of the list is [ctrl_c]. *)
Fixpoint file_daemon_loop (bind_interface : option string)
  (received : list (N * Qbit.Server)) : M unit :=
  match received with
  | [] => log Info "received shutdown signal"
  | (port, srv) :: rest =>
      log Info "applying forwarded port" ;;;
      catch (Qbit.set_listen_port srv port bind_interface)
        (fun _ => ret tt)
        (fun _ => log Warn "failed to apply forwarded port") ;;;
      file_daemon_loop bind_interface rest
  end.

(** [async fn run_file_daemon]; the spawned watcher task is the source of
    [received]. *)
Definition run_file_daemon (bind_interface : option string)
  (received : list (N * Qbit.Server)) : M unit :=
  log Info "starting file-watcher strategy" ;;;
  file_daemon_loop bind_interface received.

(** The [next_delay] of one round of [run_portmap_daemon]. *)
Definition portmap_daemon_delay (h : Portmap.Host) (srv : Qbit.Server) (mode : PortmapMode)
  (config : Config) (bind_interface : option string) : M Duration :=
  catch (portmap_cycle h srv mode config bind_interface)
    (fun delay => ret delay)
    (fun _ => log Warn "port mapping cycle failed" ;;;
              ret (from_secs (Portmap.refresh_secs (portmap config)))).

(** The [loop] of [run_portmap_daemon]: one round per gateway and qBittorrent
    answering; [ctrl_c] arrives during the sleep of the last round. *)
Fixpoint portmap_daemon_loop (mode : PortmapMode) (config : Config)
  (bind_interface : option string) (round : Portmap.Host * Qbit.Server)
  (rest : list (Portmap.Host * Qbit.Server)) : M unit :=
  let (h, srv) := round in
  next_delay <- portmap_daemon_delay h srv mode config bind_interface ;;
  emit (ESleep next_delay) ;;;
  match rest with
  | [] => log Info "received shutdown signal"
  | round' :: rest' => portmap_daemon_loop mode config bind_interface round' rest'
  end.

(** [async fn run_portmap_daemon] *)
Definition run_portmap_daemon (mode : PortmapMode) (config : Config)
  (bind_interface : option string) (round : Portmap.Host * Qbit.Server)
  (rest : list (Portmap.Host * Qbit.Server)) : M unit :=
  log Info "starting port-mapping strategy" ;;;
  portmap_daemon_loop mode config bind_interface round rest.

End Main.

(* ------------------------------------------------------------------------- *)
(** ** Concrete inputs used by the examples *)

Module Sample.
Local Open Scope string_scope.

(** A gateway at 10.2.0.1 that answers NAT-PMP, no PCP build. *)
Definition host (nat_answer : string + (N * Duration)) : Portmap.Host :=
  Portmap.mkHost false
    (fun _ => throw (plain (RootOther "unused")))
    (fun _ => Some (Portmap.V4 167903233))
    (inl "no default route") 49160 None None nat_answer.

(** The same gateway, in a build with the [pcp] feature whose PCP attempt
    fails with the given message. *)
Definition pcp_host (pcp_msg : string) (nat_answer : string + (N * Duration))
  : Portmap.Host :=
  Portmap.mkHost true
    (fun _ => throw (plain (RootPortMap (Pcp pcp_msg))))
    (fun _ => Some (Portmap.V4 167903233))
    (inl "no default route") 49160 None None nat_answer.

Definition portmap (proto : Portmap.PortProtocol) (refresh : N)
  (autodiscover : bool) (gw : option string) : Portmap.PortMapConfig :=
  Portmap.mkPortMapConfig 51413 proto refresh autodiscover gw.

Definition config (pm : Portmap.PortMapConfig) : Config :=
  mkConfig (mkQbConfig "http://127.0.0.1:8080" "admin" (Some "adminadmin")) None pm.

(** A qBittorrent that accepts the update and then reports [port]. *)
Definition server (port : N) : Qbit.Server :=
  Qbit.mkServer true None None (inr (VObject [("listen_port", VNumber (NumPosInt port));
                                               ("random_port", VBool false);
                                               ("upnp", VBool false)])).

(** TCP on 51413 through the gateway 10.2.0.1, refreshed every 300 s. *)
Definition gw_portmap : Portmap.PortMapConfig :=
  portmap Portmap.TCP 300 false (Some "10.2.0.1").

(** The request [build_request] makes of [gw_portmap]. *)
Definition request : Portmap.MapRequest :=
  Portmap.mkMapRequest Portmap.Tcp (Portmap.V4 167903233) 51413 (Some 51413) 300.

(** The Linux default forwarded-port file, [/run/user/1000/Proton/VPN/forwarded_port]. *)
Definition forwarded_port_file : Path :=
  mkPath true ["run"; "user"; "1000"; "Proton"; "VPN"; "forwarded_port"].

(** A Linux host with [XDG_RUNTIME_DIR=/run/user/1000] on which only the
    directory [/run/user/1000/Proton/VPN] exists. *)
Definition parent_only_platform : Platform :=
  mkPlatform true (Some (mkPath true ["run"; "user"; "1000"])) 1000
    (fun p => Watch.path_eqb p (mkPath true ["run"; "user"; "1000"; "Proton"; "VPN"])).

(** A command line with [--json] and no [--once], and a host on which every
    step would succeed. *)
Definition json_cli : Cli.Cli := Cli.mkCli None false OptAuto true 0.

Definition run_host : Cli.RunHost :=
  Cli.mkRunHost (inr (config gw_portmap)) (inr "adminadmin") None None None
    parent_only_platform
    (fun _ => inr (Cli.mkOutcome "file" (Some 51413) true None))
    (fun _ => None).

(** A Linux host with [XDG_RUNTIME_DIR=/run/user/1000] on which every path
    exists. *)
Definition watch_platform : Platform :=
  mkPlatform true (Some (mkPath true ["run"; "user"; "1000"])) 1000 (fun _ => true).

(** The file watcher: no file at startup, every update accepted. *)
Definition watch_host : Watch.WatchHost := Watch.mkWatchHost None None [].

(** Three writes of [51413] to the watched file. *)
Definition three_writes : list Watch.WatchEvent :=
  [Watch.WNotify [] (Some "51413"); Watch.WNotify [] (Some "51413");
   Watch.WNotify [] (Some "51413")].

(** A qBittorrent listing the interfaces [eth0] and [wg0] (id [wg0-uuid]). *)
Definition interface_server : Qbit.Server :=
  Qbit.mkServer true
    (Some [Qbit.mkItem "eth0" None None; Qbit.mkItem "wg0" (Some "wg0") (Some "wg0-uuid")])
    None (inr (VObject [("listen_port", VNumber (NumPosInt 51413))])).

(** A qBittorrent that rejects the preference update. *)
Definition rejecting_server : Qbit.Server :=
  Qbit.mkServer true None (Some "unexpected response status") (inr (VObject [])).

(** A qBittorrent that accepts the update but reports no [listen_port]. *)
Definition server_without_port : Qbit.Server :=
  Qbit.mkServer true None None (inr (VObject [("upnp", VBool false)])).

(** A host whose configured gateway [fe80::1] parses as IPv6. *)
Definition v6_host : Portmap.Host :=
  Portmap.mkHost false
    (fun _ => throw (plain (RootOther "unused")))
    (fun _ => Some (Portmap.V6 1))
    (inl "no default route") 49160 None None (inl "unused").

End Sample.

(* ========================================================================= *)
(** * Properties *)

(* ------------------------------------------------------------------------- *)
(** ** The forwarded-port parser *)

Section ParsePort.
Import Parse.






















End ParsePort.

(** ** Claim C8 *)


(* ------------------------------------------------------------------------- *)
(** ** The error/trace monad *)

Lemma result_of_bind {A B} (m : M A) (k : A -> M B) :
  result_of (bind m k) =
  match result_of m with inl e => inl e | inr a => result_of (k a) end.
Proof.
  destruct m as [t [e|a]]; [reflexivity|]. simpl. now destruct (k a).
Qed.

Lemma trace_of_bind {A B} (m : M A) (k : A -> M B) :
  trace_of (bind m k) =
  trace_of m ++ match result_of m with inl _ => [] | inr a => trace_of (k a) end.
Proof.
  destruct m as [t [e|a]]; simpl; [now rewrite app_nil_r|]. now destruct (k a).
Qed.

Lemma result_of_catch {A B} (m : M A) (ok : A -> M B) (err : Error -> M B) :
  result_of (catch m ok err) =
  match result_of m with inl e => result_of (err e) | inr a => result_of (ok a) end.
Proof.
  destruct m as [t [e|a]]; simpl; [destruct (err e)|destruct (ok a)]; reflexivity.
Qed.

Lemma trace_of_catch {A B} (m : M A) (ok : A -> M B) (err : Error -> M B) :
  trace_of (catch m ok err) =
  trace_of m ++ match result_of m with
                | inl e => trace_of (err e) | inr a => trace_of (ok a) end.
Proof.
  destruct m as [t [e|a]]; simpl; [destruct (err e)|destruct (ok a)]; reflexivity.
Qed.

(* ------------------------------------------------------------------------- *)
(** ** Claim C4 *)

(** C4: on Linux, when the resolved forwarded-port file does not exist but
    its parent directory does, [resolve_plan Auto] yields the [File] plan for
    that path. *)
Theorem resolve_plan_auto_parent_exists (config : Config) (pl : Platform) (path dir : Path) :
  target_linux pl = true ->
  resolved_forwarded_port_path config pl = Some path ->
  fs_exists pl path = false ->
  parent path = Some dir ->
  fs_exists pl dir = true ->
  resolve_plan OptAuto config pl = inr (PlanFile path).
Proof.
  intros Hlin Hres Hno Hpar Hdir.
  unfold resolve_plan, prefer_file_strategy, resolve_forwarded_port_path.
  now rewrite Hlin, Hres, Hno, Hpar, Hdir.
Qed.

(* ------------------------------------------------------------------------- *)
(** ** Claim C9 *)

(** C9: with [--json] and without [--once], [run] returns the exit code of a
    configuration error (2) before any step that touches the outside world. *)
Theorem run_json_requires_once (cli : Cli.Cli) (rh : Cli.RunHost) :
  Cli.json cli = true -> Cli.once cli = false ->
  fst (Cli.run cli rh) = [] /\
  (exists report err, snd (Cli.run cli rh) = inl (report, err, ExitCode.Config, true)) /\
  Cli.exit_code (snd (Cli.run cli rh)) = 2.
Proof.
  intros Hj Ho. unfold Cli.run. rewrite Hj, Ho. simpl.
  split; [reflexivity|]. split; [eexists; eexists; reflexivity|reflexivity].
Qed.

(* ------------------------------------------------------------------------- *)
(** ** Durations and the next wake delay *)

(** The invariant of [std::time::Duration]. *)
Definition valid_duration (d : Duration) : Prop := d_nanos d < NANOS_PER_SEC.

Lemma div2_as_nanos d :
  valid_duration d ->
  as_nanos (div_u32 d 2) = as_nanos d / 2 /\ valid_duration (div_u32 d 2).
Proof.
  unfold valid_duration, as_nanos, div_u32, NANOS_PER_SEC; destruct d as [s n]; simpl.
  intros Hn.
  assert (n / 2 < 500000000) by (apply N.Div0.div_lt_upper_bound; lia).
  destruct (N.Even_or_Odd s) as [[k ->]|[k ->]].
  - replace (2 * k / 2) with k by (rewrite N.mul_comm, N.div_mul; lia).
    replace (2 * k - k * 2) with 0 by lia.
    replace ((2 * k * 1000000000 + n)) with (n + (k * 1000000000) * 2) by lia.
    rewrite N.div_add by lia. replace (0 * 1000000000 / 2) with 0 by reflexivity.
    split; lia.
  - replace ((2 * k + 1) / 2) with k by (apply N.div_unique with 1; lia).
    replace (2 * k + 1 - k * 2) with 1 by lia.
    replace ((2 * k + 1) * 1000000000 + n)
      with (n + (k * 1000000000 + 500000000) * 2) by lia.
    rewrite N.div_add by lia. replace (1 * 1000000000 / 2) with 500000000 by reflexivity.
    split; lia.
Qed.

Lemma duration_le_nanos a b :
  valid_duration a -> valid_duration b ->
  duration_le a b = true <-> as_nanos a <= as_nanos b.
Proof.
  unfold valid_duration, as_nanos, duration_le, NANOS_PER_SEC;
    destruct a as [s n], b as [s' n']; simpl; intros Ha Hb.
  rewrite orb_true_iff, andb_true_iff, N.ltb_lt, N.eqb_eq, N.leb_le.
  split.
  - intros [H|[H1 H2]]; [|subst; lia].
    assert ((s + 1) * 1000000000 <= s' * 1000000000) by (apply N.mul_le_mono_r; lia).
    lia.
  - intros H. destruct (N.lt_trichotomy s s') as [Hl|[He|Hg]]; [left; lia|right; lia|].
    exfalso.
    assert ((s' + 1) * 1000000000 <= s * 1000000000) by (apply N.mul_le_mono_r; lia).
    lia.
Qed.

Lemma duration_max_nanos a b :
  valid_duration a -> valid_duration b ->
  as_nanos (duration_max a b) = N.max (as_nanos a) (as_nanos b).
Proof.
  intros Ha Hb. unfold duration_max.
  destruct (duration_le a b) eqn:E.
  - apply (duration_le_nanos a b Ha Hb) in E. lia.
  - assert (~ as_nanos a <= as_nanos b) as Hn
      by (rewrite <- (duration_le_nanos a b Ha Hb); congruence).
    lia.
Qed.

Lemma portmap_cycle_success h srv mode config bind d :
  result_of (portmap_cycle h srv mode config bind) = inr d ->
  exists m, result_of (negotiate h mode (portmap config)) = inr m /\
    d = match Portmap.ttl m with
        | Some t => duration_max (div_u32 t 2) (from_secs 10)
        | None => from_secs (Portmap.refresh_secs (portmap config))
        end.
Proof.
  unfold portmap_cycle. rewrite result_of_bind.
  destruct (result_of (negotiate h mode (portmap config))) as [e|m]; [discriminate|].
  intros H. exists m. split; [reflexivity|].
  rewrite !result_of_bind in H. simpl in H.
  destruct (result_of (Qbit.set_listen_port _ _ _)) as [e|u]; [discriminate|].
  rewrite !result_of_bind in H.
  destruct (negb (Qbit.verified u)); simpl in H; congruence.
Qed.

(* ------------------------------------------------------------------------- *)
(** ** Claim C1 *)

(** C1, as stated, fails: a returned lease below 20 s gives a 10 s delay,
    not the configured refresh interval.  Here NAT-PMP grants a 10 s lease
    with a 300 s refresh interval configured: the next wake is after 10 s. *)
Lemma portmap_cycle_short_lease_counterexample :
  let cfg := Sample.config (Sample.portmap Portmap.TCP 300 false (Some "10.2.0.1"%string)) in
  let h := Sample.host (inr (51413, from_secs 10)) in
  result_of (negotiate h ModeNatOnly (portmap cfg))
    = inr (Portmap.mkMapResult 51413 (Some (from_secs 10)) Portmap.StratNatPmp) /\
  result_of (portmap_cycle h (Sample.server 51413) ModeNatOnly cfg None)
    = inr (from_secs 10) /\
  result_of (portmap_cycle h (Sample.server 51413) ModeNatOnly cfg None)
    <> inr (from_secs (Portmap.refresh_secs (portmap cfg))).
Proof.
  vm_compute. split; [reflexivity|]. split; [reflexivity|]. congruence.
Qed.

(** C1 (amended): after a successful cycle whose negotiation returned the
    lease [L], the next wake delay is [max(L/2, 10 s)]: [L/2] when
    [L >= 20 s] and exactly 10 s when [L < 20 s]; when no lease was returned
    it is the configured refresh interval, with no floor. *)
Theorem portmap_cycle_next_delay h srv mode config bind d :
  result_of (portmap_cycle h srv mode config bind) = inr d ->
  exists m, result_of (negotiate h mode (portmap config)) = inr m /\
    match Portmap.ttl m with
    | Some L =>
        valid_duration L ->
        as_nanos d = N.max (as_nanos L / 2) (10 * NANOS_PER_SEC) /\
        (20 * NANOS_PER_SEC <= as_nanos L -> as_nanos d = as_nanos L / 2) /\
        (as_nanos L < 20 * NANOS_PER_SEC -> d = from_secs 10)
    | None => d = from_secs (Portmap.refresh_secs (portmap config))
    end.
Proof.
  intros H. apply portmap_cycle_success in H as [m [Hm Hd]].
  exists m. split; [exact Hm|].
  destruct (Portmap.ttl m) as [L|]; [|exact Hd].
  intros HL. subst d.
  destruct (div2_as_nanos L HL) as [Hdiv Hv].
  assert (valid_duration (from_secs 10)) as H10 by (cbv; reflexivity).
  assert (as_nanos (from_secs 10) = 10 * NANOS_PER_SEC) as E10 by reflexivity.
  rewrite (duration_max_nanos _ _ Hv H10), Hdiv, E10.
  split; [reflexivity|]. split.
  - intros Hge.
    assert (10 * NANOS_PER_SEC <= as_nanos L / 2)
      by (apply N.div_le_lower_bound; unfold NANOS_PER_SEC in *; lia).
    now apply N.max_l.
  - intros Hlt. unfold duration_max.
    replace (duration_le (div_u32 L 2) (from_secs 10)) with true; [reflexivity|].
    symmetry. apply duration_le_nanos; [exact Hv|exact H10|].
    rewrite Hdiv, E10. apply N.Div0.div_le_upper_bound. unfold NANOS_PER_SEC in *. lia.
Qed.

(* ------------------------------------------------------------------------- *)
(** ** The fallback chain *)

Lemma build_request_trace h config :
  Forall (fun ev => ev = EDiscoverGateway) (trace_of (Portmap.build_request h config)).
Proof.
  unfold Portmap.build_request, Portmap.resolve_gateway, Portmap.discover_or_fail.
  destruct (Portmap.resolve_ports h config) as [i p].
  destruct (Portmap.gateway config) as [g|];
    [destruct (negb _); [destruct (Portmap.parse_ip h g)|]|];
    try destruct (Portmap.autodiscover_gateway config);
    try destruct (Portmap.default_gateway h); simpl; repeat constructor.
Qed.

Lemma try_natpmp_strategy h req m :
  result_of (Portmap.try_natpmp h req) = inr m -> Portmap.strategy m = Portmap.StratNatPmp.
Proof.
  unfold Portmap.try_natpmp, Portmap.natpmp_map.
  destruct (Portmap.req_gateway req); [|simpl; discriminate].
  destruct (Portmap.natpmp_new_error h); [simpl; discriminate|].
  destruct (Portmap.natpmp_send_error h); [simpl; discriminate|].
  destruct (Portmap.natpmp_response h) as [msg|[port lt]]; simpl; [discriminate|].
  intros H. inversion H. reflexivity.
Qed.

Lemma map_prefer_pcp_failed h config req e :
  result_of (Portmap.build_request h config) = inr req ->
  result_of (Portmap.try_pcp h req) = inl e ->
  result_of (Portmap.map_prefer_pcp_fallback_natpmp h config) =
    result_of (Portmap.try_natpmp h req) /\
  trace_of (Portmap.map_prefer_pcp_fallback_natpmp h config) =
    trace_of (Portmap.build_request h config) ++
    trace_of (Portmap.try_pcp h req) ++
    trace_of (Portmap.pcp_failure_log e) ++
    trace_of (Portmap.try_natpmp h req) ++
    match result_of (Portmap.try_natpmp h req) with
    | inl _ => []
    | inr _ => [ELog Info "acquired NAT-PMP mapping"]
    end.
Proof.
  intros Hb Hp. unfold Portmap.map_prefer_pcp_fallback_natpmp.
  rewrite result_of_bind, trace_of_bind, Hb.
  rewrite result_of_catch, trace_of_catch, Hp.
  rewrite !result_of_bind, !trace_of_bind.
  destruct (Portmap.pcp_failure_log e) as [tl [el|u]] eqn:El;
    [unfold Portmap.pcp_failure_log in El;
     destruct (err_root e) as [| |[]| |]; discriminate|].
  simpl. destruct (result_of (Portmap.try_natpmp h req)); simpl;
    rewrite ?app_nil_r; split; reflexivity.
Qed.

Lemma try_pcp_trace h req :
  exists rest, trace_of (Portmap.try_pcp h req) = ETryPcp :: rest.
Proof.
  unfold Portmap.try_pcp. rewrite trace_of_bind. eexists. reflexivity.
Qed.

(* ------------------------------------------------------------------------- *)
(** ** Claim C2 *)

(** C2: in [Auto] mode, when the PCP attempt fails (with any error) and the
    NAT-PMP attempt succeeds, the cycle returns the NAT-PMP mapping, whose
    strategy is NAT-PMP, and [try_pcp] is entered before [try_natpmp]. *)
Theorem auto_pcp_failure_falls_back_to_natpmp h config req e m :
  result_of (Portmap.build_request h config) = inr req ->
  result_of (Portmap.try_pcp h req) = inl e ->
  result_of (Portmap.try_natpmp h req) = inr m ->
  result_of (negotiate h ModeAuto config) = inr m /\
  Portmap.strategy m = Portmap.StratNatPmp /\
  exists t1 t2, trace_of (negotiate h ModeAuto config) = t1 ++ ETryPcp :: t2 /\
                ~ In ETryNatPmp t1 /\ In ETryNatPmp t2.
Proof.
  intros Hb Hp Hn. unfold negotiate.
  destruct (map_prefer_pcp_failed h config req e Hb Hp) as [Hr Ht].
  split; [now rewrite Hr|].
  split; [now apply try_natpmp_strategy with h req|].
  destruct (try_pcp_trace h req) as [rest Hrest].
  exists (trace_of (Portmap.build_request h config)).
  exists (rest ++
          trace_of (Portmap.pcp_failure_log e) ++
          trace_of (Portmap.try_natpmp h req) ++
          match result_of (Portmap.try_natpmp h req) with
          | inl _ => [] | inr _ => [ELog Info "acquired NAT-PMP mapping"] end).
  split; [|split].
  - rewrite Ht, Hrest. reflexivity.
  - intros Hin. pose proof (build_request_trace h config) as F.
    rewrite Forall_forall in F. specialize (F _ Hin). discriminate F.
  - apply in_or_app. right. apply in_or_app. right. apply in_or_app. left.
    unfold Portmap.try_natpmp. rewrite trace_of_bind. left. reflexivity.
Qed.

(* ------------------------------------------------------------------------- *)
(** ** Claim C3 *)

(** C3, as stated, fails: when both attempts fail, the error of the cycle is
    the NAT-PMP error alone; the PCP message is not in it. *)
Lemma auto_both_fail_counterexample :
  let h := Sample.pcp_host "UNSUPP_OPCODE" (inl "NATPMP_ERR_NETWORKFAILURE"%string) in
  let pm := Sample.portmap Portmap.TCP 300 false (Some "10.2.0.1"%string) in
  result_of (negotiate h ModeAuto pm)
    = inl (plain (RootPortMap (NatPmp "NATPMP_ERR_NETWORKFAILURE"))) /\
  contains "UNSUPP_OPCODE" (display_alt (plain (RootPortMap (NatPmp "NATPMP_ERR_NETWORKFAILURE"))))
    = false.
Proof. vm_compute. split; reflexivity. Qed.

(** C3 (amended): in [Auto] mode, when the PCP attempt fails and the NAT-PMP
    attempt fails too, the cycle fails with the NAT-PMP error itself; the PCP
    error is only written to the log, before the NAT-PMP attempt. *)
Theorem auto_both_fail_natpmp_error h config req e1 e2 :
  result_of (Portmap.build_request h config) = inr req ->
  result_of (Portmap.try_pcp h req) = inl e1 ->
  result_of (Portmap.try_natpmp h req) = inl e2 ->
  result_of (negotiate h ModeAuto config) = inl e2 /\
  exists t1 t2, trace_of (negotiate h ModeAuto config)
                = t1 ++ trace_of (Portmap.pcp_failure_log e1) ++ ETryNatPmp :: t2.
Proof.
  intros Hb Hp Hn. unfold negotiate.
  destruct (map_prefer_pcp_failed h config req e1 Hb Hp) as [Hr Ht].
  split; [now rewrite Hr|].
  exists (trace_of (Portmap.build_request h config) ++ trace_of (Portmap.try_pcp h req)).
  exists (trace_of (Portmap.natpmp_map h req)).
  rewrite Ht, Hn, app_nil_r, <- !app_assoc. do 3 f_equal.
  unfold Portmap.try_natpmp. rewrite trace_of_bind. reflexivity.
Qed.

(* ------------------------------------------------------------------------- *)
(** ** Claim C5 *)

(** C5 (code defect): with no gateway configured and autodiscovery disabled,
    every mode fails before any attempt, with an untyped error that
    [classify_error] maps to [Transient] (exit code 1), not to [Config]. *)
Theorem no_gateway_error_is_transient h mode internal proto refresh :
  let pm := Portmap.mkPortMapConfig internal proto refresh false None in
  negotiate h mode pm
    = ([], inl (plain (RootOther "gateway discovery disabled and no gateway configured"))) /\
  classify_error (plain (RootOther "gateway discovery disabled and no gateway configured"))
    = ExitCode.Transient /\
  exit_code_value (classify_error
    (plain (RootOther "gateway discovery disabled and no gateway configured"))) = 1.
Proof.
  destruct mode; repeat split.
Qed.

(* ------------------------------------------------------------------------- *)
(** ** Claim C7 *)

Lemma natpmp_map_trace h req ev :
  In ev (trace_of (Portmap.natpmp_map h req)) ->
  exists p i e l, ev = ENatPmpRequest p i e l /\
                  (Portmap.req_protocol req = Portmap.Both -> p = NatTCP).
Proof.
  unfold Portmap.natpmp_map.
  destruct (Portmap.req_gateway req); [|simpl; tauto].
  destruct (Portmap.natpmp_new_error h); [simpl; tauto|].
  rewrite trace_of_bind. simpl.
  destruct (Portmap.natpmp_send_error h);
    [|destruct (Portmap.natpmp_response h) as [|[]]]; simpl;
    intros [<-|[]]; do 4 eexists; (split; [reflexivity|]); intros ->; reflexivity.
Qed.

(** C7 (code defect): on the NAT-PMP path a [BOTH] request is sent as TCP
    and nothing at warning level is logged about it.  For every host and
    every [BOTH] configuration, the trace of a NAT-PMP-only negotiation has
    no warning and only TCP requests; on a reachable gateway the TCP request
    is indeed sent. *)
Theorem natpmp_both_collapse_is_silent h internal refresh autodiscover gw :
  let pm := Portmap.mkPortMapConfig internal Portmap.BOTH refresh autodiscover gw in
  (forall ev, In ev (trace_of (negotiate h ModeNatOnly pm)) ->
     (forall msg, ev <> ELog Warn msg) /\
     (forall p i e l, ev = ENatPmpRequest p i e l -> p = NatTCP)) /\
  In (ENatPmpRequest NatTCP 51413 51413 300)
     (trace_of (negotiate (Sample.host (inr (51413, from_secs 300))) ModeNatOnly
                  (Sample.portmap Portmap.BOTH 300 false (Some "10.2.0.1"%string)))).
Proof.
  intros pm. split; [|vm_compute; tauto].
  intros ev. unfold negotiate, Portmap.map_with_natpmp.
  rewrite trace_of_bind. intros Hin. apply in_app_or in Hin as [Hin|Hin].
  - pose proof (build_request_trace h pm) as F. rewrite Forall_forall in F.
    rewrite (F _ Hin). split; discriminate.
  - destruct (result_of (Portmap.build_request h pm)) as [e|req] eqn:Hb; [destruct Hin|].
    unfold Portmap.try_natpmp in Hin. rewrite trace_of_bind in Hin.
    destruct Hin as [<-|Hin]; [split; discriminate|].
    apply natpmp_map_trace in Hin as (p & i & e & l & -> & Hp).
    split; [discriminate|].
    intros p' i' e' l' Heq. inversion Heq; subst. apply Hp.
    unfold Portmap.build_request in Hb. rewrite result_of_bind in Hb.
    destruct (result_of (Portmap.resolve_gateway h pm)); [discriminate|].
    destruct (Portmap.resolve_ports h pm). simpl in Hb. inversion Hb. reflexivity.
Qed.

(* ------------------------------------------------------------------------- *)
(** ** Claim C10 *)

Lemma map_get_insert k k' v m :
  map_get k (map_insert k' v m) = if String.eqb k k' then Some v else map_get k m.
Proof.
  induction m as [|[k2 v2] m IH]; simpl; [reflexivity|].
  destruct (String.eqb_spec k' k2) as [<-|Hne]; simpl.
  - now destruct (String.eqb k k').
  - rewrite IH.
    destruct (String.eqb_spec k k2) as [->|Hk];
      destruct (String.eqb_spec k2 k') as [E|E]; try congruence;
      destruct (String.eqb_spec k k') as [E'|E']; congruence.
Qed.

(** The three preferences every update carries. *)
Definition base_prefs (port : N) (payload : JMap) : Prop :=
  map_get "listen_port" payload = Some (VNumber (NumPosInt port)) /\
  map_get "random_port" payload = Some (VBool false) /\
  map_get "upnp" payload = Some (VBool false).

Lemma base_prefs_payload0 port :
  base_prefs port
    (map_insert "upnp" (VBool false)
       (map_insert "random_port" (VBool false)
          (map_insert "listen_port" (VNumber (NumPosInt port)) []))).
Proof. repeat split. Qed.

Lemma base_prefs_insert port k v payload :
  k <> "listen_port"%string -> k <> "random_port"%string -> k <> "upnp"%string ->
  base_prefs port payload -> base_prefs port (map_insert k v payload).
Proof.
  intros H1 H2 H3 (E1 & E2 & E3). unfold base_prefs.
  rewrite !map_get_insert.
  repeat match goal with
  | |- context [String.eqb ?a ?b] =>
      let E := fresh in destruct (String.eqb a b) eqn:E;
      [apply String.eqb_eq in E; congruence|]
  end.
  auto.
Qed.

Lemma no_set_preferences_in_logs_and_fetch srv requested :
  forall ev, In ev (trace_of (Qbit.resolve_interface srv requested)) ->
  forall pl, ev <> EQbSetPreferences pl.
Proof.
  unfold Qbit.resolve_interface. rewrite trace_of_catch.
  unfold Qbit.fetch_interfaces, Qbit.endpoint.
  destruct (Qbit.endpoint_ok srv); simpl;
    [destruct (Qbit.interfaces srv) as [items|];
     simpl; [destruct (filter _ items)|]|];
    simpl; intros ev Hin pl; repeat (destruct Hin as [<-|Hin]; [discriminate|]);
    destruct Hin.
Qed.

Lemma build_payload_prefs srv port bind pl :
  result_of (Qbit.build_payload srv port bind) = inr pl -> base_prefs port pl.
Proof.
  unfold Qbit.build_payload.
  destruct (Qbit.bind_filter bind) as [iface|];
    [|simpl; intros H; inversion H; apply base_prefs_payload0].
  rewrite result_of_bind.
  destruct (result_of (Qbit.resolve_interface srv iface)) as [e|[sel|]]; [discriminate| |].
  - destruct (Qbit.sel_id sel); simpl; intros H; inversion H; subst;
      repeat (apply base_prefs_insert; [discriminate|discriminate|discriminate|]);
      apply base_prefs_payload0.
  - simpl. intros H. inversion H. apply base_prefs_payload0.
Qed.

Lemma build_payload_trace srv port bind ev :
  In ev (trace_of (Qbit.build_payload srv port bind)) ->
  forall pl, ev <> EQbSetPreferences pl.
Proof.
  unfold Qbit.build_payload.
  destruct (Qbit.bind_filter bind) as [iface|]; [|simpl; tauto].
  rewrite trace_of_bind. intros Hin pl. apply in_app_or in Hin as [Hin|Hin].
  - eapply no_set_preferences_in_logs_and_fetch; eassumption.
  - destruct (result_of (Qbit.resolve_interface srv iface)) as [e|[sel|]];
      [destruct Hin| destruct (Qbit.sel_id sel); destruct Hin |];
    simpl in Hin; destruct Hin as [<-|[]]; discriminate.
Qed.

(** The part of [set_listen_port] after the payload is built. *)
Lemma set_listen_port_after_payload srv port bind pl :
  result_of (Qbit.build_payload srv port bind) = inr pl ->
  trace_of (Qbit.set_listen_port srv port bind) =
    trace_of (Qbit.build_payload srv port bind) ++
    trace_of (Qbit.post_preferences srv pl ;;;
              prefs <- Qbit.get_preferences srv ;;
              detected <-
                match obind (obind (value_get "listen_port" prefs) as_u64) u16_try_from with
                | Some d => ret d
                | None => throw (plain (RootOther "qBittorrent preferences missing listen_port"))
                end ;;
              (if detected =? port then log Info "qBittorrent listen port verified"
               else log Warn "qBittorrent listen port mismatch after update") ;;;
              ret (Qbit.mkUpdate detected (detected =? port)
                     (obind (value_get "random_port" prefs) as_bool)
                     (obind (value_get "upnp" prefs) as_bool))).
Proof.
  intros H. unfold Qbit.set_listen_port. rewrite trace_of_bind, H. reflexivity.
Qed.

Lemma in_trace_bind {A B} (m : M A) (k : A -> M B) ev :
  In ev (trace_of (bind m k)) ->
  In ev (trace_of m) \/ exists a, result_of m = inr a /\ In ev (trace_of (k a)).
Proof.
  rewrite trace_of_bind. intros H. apply in_app_or in H as [H|H]; [now left|].
  destruct (result_of m) as [e|a]; [destruct H|]. right. now exists a.
Qed.

Lemma post_preferences_trace srv pl ev :
  In ev (trace_of (Qbit.post_preferences srv pl)) ->
  ev = EQbSetPreferences pl \/ exists l m, ev = ELog l m.
Proof.
  unfold Qbit.post_preferences, Qbit.endpoint.
  destruct (Qbit.endpoint_ok srv); [|intros []].
  destruct (Qbit.post_error srv); simpl; intros H;
    repeat (destruct H as [<-|H]; [eauto|]); destruct H.
Qed.

Lemma get_preferences_trace srv ev :
  In ev (trace_of (Qbit.get_preferences srv)) -> ev = EQbGetPreferences.
Proof.
  unfold Qbit.get_preferences, Qbit.endpoint.
  destruct (Qbit.endpoint_ok srv); [|intros []].
  destruct (Qbit.preferences srv); simpl; intros [<-|[]]; reflexivity.
Qed.

(** C10: every preference update [set_listen_port] sends carries
    [listen_port = port], [random_port = false] and [upnp = false]; and when
    the call returns a result, [verified] is [true] exactly when the
    [listen_port] of the preferences queried afterwards equals [port]. *)
Theorem set_listen_port_payload_verified srv port bind :
  (forall pl, In (EQbSetPreferences pl) (trace_of (Qbit.set_listen_port srv port bind)) ->
     base_prefs port pl) /\
  (forall r, result_of (Qbit.set_listen_port srv port bind) = inr r ->
     exists prefs, Qbit.preferences srv = inr prefs /\
       (Qbit.verified r = true <->
        obind (value_get "listen_port" prefs) as_u64 = Some port)).
Proof.
  split.
  - intros pl Hin.
    apply in_trace_bind in Hin as [Hin|(payload & Hb & Hin)];
      [exfalso; eapply build_payload_trace; [exact Hin|reflexivity]|].
    apply in_trace_bind in Hin as [Hin|(u & _ & Hin)].
    + apply post_preferences_trace in Hin as [Heq|(l & m & Heq)]; [|discriminate].
      inversion Heq. subst. now apply build_payload_prefs with srv bind.
    + apply in_trace_bind in Hin as [Hin|(prefs & _ & Hin)].
      { apply get_preferences_trace in Hin. discriminate. }
      apply in_trace_bind in Hin as [Hin|(d & _ & Hin)].
      { destruct (obind _ _) in Hin; destruct Hin. }
      apply in_trace_bind in Hin as [Hin|(v & _ & Hin)]; [|destruct Hin].
      destruct (d =? port); destruct Hin as [Heq|[]]; discriminate.
  - intros r Hr.
    unfold Qbit.set_listen_port in Hr. rewrite result_of_bind in Hr.
    destruct (result_of (Qbit.build_payload srv port bind)) as [e|payload];
      [discriminate|].
    unfold Qbit.post_preferences, Qbit.get_preferences, Qbit.endpoint in Hr.
    destruct (Qbit.endpoint_ok srv); [|discriminate].
    destruct (Qbit.post_error srv); [discriminate|].
    rewrite !result_of_bind in Hr. simpl in Hr.
    destruct (Qbit.preferences srv) as [e|prefs]; [discriminate|].
    exists prefs. split; [reflexivity|].
    simpl in Hr.
    destruct (obind (value_get "listen_port" prefs) as_u64) as [v|] eqn:Ev;
      [|discriminate].
    simpl in Hr. unfold u16_try_from in Hr.
    destruct (v <=? Parse.U16_MAX); [|discriminate].
    rewrite !result_of_bind in Hr. cbn [result_of ret snd] in Hr.
    destruct (v =? port) eqn:Evp; rewrite result_of_bind in Hr;
      cbn [result_of log emit snd] in Hr; injection Hr as <-; simpl.
    + apply N.eqb_eq in Evp. subst. tauto.
    + split; [discriminate|]. intros H. inversion H. subst.
      rewrite N.eqb_refl in Evp. discriminate.
Qed.

(* ------------------------------------------------------------------------- *)
(** ** The forwarded-port file watcher *)

Ltac msimpl :=
  repeat (rewrite ?trace_of_bind, ?result_of_bind;
          cbn [trace_of result_of fst snd log emit ret throw app negb]).

Section FileWatcher.
Import Watch.

Lemma applied_ports_app a b :
  applied_ports (a ++ b) = applied_ports a ++ applied_ports b.
Proof.
  induction a as [|ev a IH]; [reflexivity|]. destruct ev; simpl; now rewrite ?IH.
Qed.

Lemma no_repeat_cons x l :
  no_repeat l -> (forall y l', l = y :: l' -> x <> y) -> no_repeat (x :: l).
Proof.
  destruct l as [|y l']; simpl; [tauto|]. intros H Hh. split; [|exact H].
  now apply (Hh y l').
Qed.

Lemma opt_N_eqb_some_false q p : opt_N_eqb (Some q) (Some p) = false -> p <> q.
Proof. simpl. intros H ->. now rewrite N.eqb_refl in H. Qed.

(** The loop keeps the invariant: no repetition in what it applies, and its
    first application differs from the last applied port. *)
Lemma watch_loop_no_repeat path events : forall last results,
  no_repeat (applied_ports (trace_of (watch_loop path last results events))) /\
  (forall q x l, last = Some q ->
     applied_ports (trace_of (watch_loop path last results events)) = x :: l ->
     x <> q).
Proof.
  induction events as [|ev events IH]; intros last results.
  - simpl. split; [exact I|]. discriminate.
  - destruct ev as [|paths content|msg]; cbn [watch_loop].
    + simpl. split; [exact I|]. discriminate.
    + destruct (is_relevant paths path); cbn [negb]; [|apply IH].
      unfold handle_event. destruct (read_port content) as [p|]; msimpl.
      * destruct (opt_N_eqb last (Some p)) eqn:E; cbn [negb]; msimpl.
        -- apply IH.
        -- unfold update_listen_port. msimpl.
           assert (Hne : forall q, last = Some q -> p <> q)
             by (intros q ->; now apply opt_N_eqb_some_false).
           destruct results as [|[e'|[]] rest]; msimpl;
             try (split; [exact I|intros q x l Hq [= <- _]; now apply Hne]);
             (split; [apply no_repeat_cons; [apply IH|]; intros y l' Hy;
                      intros <-; exact (proj2 (IH (Some p) _) p p l' eq_refl Hy eq_refl)
                     |intros q x l Hq [= <- _]; now apply Hne]).
      * apply IH.
    + msimpl. apply IH.
Qed.

Lemma watch_loop_same path p events : forall results,
  forallb (reads_only p) events = true ->
  applied_ports (trace_of (watch_loop path (Some p) results events)) = [].
Proof.
  induction events as [|ev events IH]; intros results Hall; [reflexivity|].
  simpl in Hall. apply andb_prop in Hall as [Hev Hall].
  destruct ev as [|paths content|msg]; cbn [watch_loop].
  - reflexivity.
  - destruct (is_relevant paths path); cbn [negb]; [|now apply IH].
    unfold handle_event. simpl in Hev.
    destruct (read_port content) as [q|]; msimpl; [|now apply IH].
    apply N.eqb_eq in Hev. subst q. cbn [opt_N_eqb]. rewrite N.eqb_refl.
    msimpl. now apply IH.
  - msimpl. now apply IH.
Qed.

Lemma update_listen_port_applied p results :
  applied_ports (trace_of (update_listen_port p results)) = [p].
Proof.
  unfold update_listen_port. msimpl. now destruct results as [|[e'|[]] rest].
Qed.

End FileWatcher.

(** C6: in every run of the file watcher no two consecutive applications of a
    port to the client carry the same port; and once the watcher is set up,
    if the notifications only ever read [p] and the first one (or the file
    read at startup) reads [p], then [p] is applied exactly once, however
    many notifications arrive. *)
Theorem file_watcher_applies_only_changes config pl wh events :
  Watch.no_repeat (Watch.applied_ports
                     (trace_of (Watch.run_file_watcher config pl wh events))) /\
  (forall path p,
     resolved_forwarded_port_path config pl = Some path ->
     fs_exists pl path = true \/ parent path <> None ->
     Watch.watch_error wh = None ->
     Watch.read_port (Watch.initial_content wh) = None \/
       Watch.read_port (Watch.initial_content wh) = Some p ->
     Watch.read_port (Watch.initial_content wh) = Some p \/
       (exists paths c rest, events = Watch.WNotify paths c :: rest /\
          Watch.is_relevant paths path = true /\ Watch.read_port c = Some p) ->
     forallb (Watch.reads_only p) events = true ->
     Watch.applied_ports (trace_of (Watch.run_file_watcher config pl wh events)) = [p]).
Proof.
  split.
  - unfold Watch.run_file_watcher.
    destruct (resolved_forwarded_port_path config pl) as [path|]; [|exact I].
    assert (Hloop : forall t last results,
      Watch.applied_ports t = [] ->
      (forall q, last = Some q -> Watch.applied_ports t = []) ->
      Watch.no_repeat (Watch.applied_ports
                         (t ++ trace_of (Watch.watch_loop path last results events))))
      by (intros t last results Ht _; rewrite applied_ports_app, Ht;
          apply watch_loop_no_repeat).
    destruct (fs_exists pl path); [|destruct (parent path) as [dir|]; [|exact I]];
      msimpl;
      (destruct (Watch.watch_error wh); [exact I|]);
      (destruct (Watch.read_port (Watch.initial_content wh)) as [p|];
       [|apply (Hloop []); reflexivity]);
      msimpl; cbn [Watch.applied_ports]; rewrite applied_ports_app, update_listen_port_applied;
      destruct (result_of (Watch.update_listen_port p (Watch.client_results wh)))
        as [e|results]; try exact I;
      (apply no_repeat_cons; [apply watch_loop_no_repeat|]);
      intros y l' Hy <-;
      exact (proj2 (watch_loop_no_repeat path events (Some p) results)
               p p l' eq_refl Hy eq_refl).
  - intros path p Hpath Htarget Hwatch Hinit Hfirst Hall.
    unfold Watch.run_file_watcher. rewrite Hpath.
    assert (Htgt : exists dir, (if fs_exists pl path then ret path
              else match parent path with
                   | Some dir => ret dir
                   | None => throw (plain (RootOther
                               "forwarded port path has no parent directory"))
                   end) = ret dir).
    { destruct (fs_exists pl path); [eauto|].
      destruct (parent path) as [dir|]; [eauto|]. destruct Htarget; congruence. }
    destruct Htgt as [dir ->]. msimpl.
    rewrite Hwatch.
    destruct Hinit as [Hnone|Hsome].
    + rewrite Hnone. destruct Hfirst as [Hs|(paths & c & rest & -> & Hrel & Hc)];
        [congruence|].
      cbn [Watch.watch_loop]. rewrite Hrel. unfold Watch.handle_event. rewrite Hc.
      msimpl. cbn [Watch.opt_N_eqb negb]. msimpl. cbn [Watch.applied_ports].
      rewrite applied_ports_app, update_listen_port_applied.
      simpl in Hall. apply andb_prop in Hall as [_ Hall].
      destruct (result_of (Watch.update_listen_port p (Watch.client_results wh)))
        as [e|results]; [reflexivity|].
      now rewrite watch_loop_same.
    + rewrite Hsome. msimpl. cbn [Watch.applied_ports].
      rewrite applied_ports_app, update_listen_port_applied.
      destruct (result_of (Watch.update_listen_port p (Watch.client_results wh)))
        as [e|results]; [reflexivity|].
      now rewrite watch_loop_same.
Qed.

(* ------------------------------------------------------------------------- *)
(** ** The theorems at concrete inputs *)


Lemma resolve_plan_auto_parent_exists_witness :
  resolve_plan OptAuto (Sample.config Sample.gw_portmap) Sample.parent_only_platform
    = inr (PlanFile Sample.forwarded_port_file).
Proof.
  apply (resolve_plan_auto_parent_exists _ _ Sample.forwarded_port_file
           (mkPath true ["run"; "user"; "1000"; "Proton"; "VPN"]%string));
    vm_compute; reflexivity.
Defined.

Lemma run_json_requires_once_witness :
  fst (Cli.run Sample.json_cli Sample.run_host) = [] /\
  Cli.exit_code (snd (Cli.run Sample.json_cli Sample.run_host)) = 2.
Proof.
  destruct (run_json_requires_once Sample.json_cli Sample.run_host
              ltac:(reflexivity) ltac:(reflexivity)) as [H1 [_ H3]].
  split; [exact H1|exact H3].
Defined.

Lemma portmap_cycle_next_delay_witness :
  exists m, result_of (negotiate (Sample.host (inr (51413, from_secs 600))) ModeNatOnly
                         Sample.gw_portmap) = inr m /\
    match Portmap.ttl m with
    | Some L =>
        valid_duration L ->
        as_nanos (from_secs 300) = N.max (as_nanos L / 2) (10 * NANOS_PER_SEC) /\
        (20 * NANOS_PER_SEC <= as_nanos L -> as_nanos (from_secs 300) = as_nanos L / 2) /\
        (as_nanos L < 20 * NANOS_PER_SEC -> from_secs 300 = from_secs 10)
    | None => from_secs 300 = from_secs (Portmap.refresh_secs Sample.gw_portmap)
    end.
Proof.
  apply (portmap_cycle_next_delay (Sample.host (inr (51413, from_secs 600)))
           (Sample.server 51413) ModeNatOnly (Sample.config Sample.gw_portmap) None).
  vm_compute. reflexivity.
Defined.

Lemma auto_pcp_failure_falls_back_to_natpmp_witness :
  result_of (negotiate (Sample.pcp_host "UNSUPP_OPCODE" (inr (51413, from_secs 7200)))
               ModeAuto Sample.gw_portmap)
    = inr (Portmap.mkMapResult 51413 (Some (from_secs 7200)) Portmap.StratNatPmp).
Proof.
  apply (auto_pcp_failure_falls_back_to_natpmp _ _ Sample.request
           (plain (RootPortMap (Pcp "UNSUPP_OPCODE"))));
    vm_compute; reflexivity.
Defined.

Lemma auto_both_fail_natpmp_error_witness :
  result_of (negotiate (Sample.pcp_host "UNSUPP_OPCODE" (inl "NATPMP_ERR_NETWORKFAILURE"%string))
               ModeAuto Sample.gw_portmap)
    = inl (plain (RootPortMap (NatPmp "NATPMP_ERR_NETWORKFAILURE"))).
Proof.
  apply (auto_both_fail_natpmp_error _ _ Sample.request
           (plain (RootPortMap (Pcp "UNSUPP_OPCODE"))));
    vm_compute; reflexivity.
Defined.

Lemma natpmp_both_collapse_is_silent_witness :
  (forall msg, ENatPmpRequest NatTCP 51413 51413 300 <> ELog Warn msg) /\
  (forall p i e l, ENatPmpRequest NatTCP 51413 51413 300 = ENatPmpRequest p i e l ->
     p = NatTCP).
Proof.
  apply (proj1 (natpmp_both_collapse_is_silent (Sample.host (inr (51413, from_secs 300)))
                  51413 300 false (Some "10.2.0.1"%string))).
  vm_compute. tauto.
Defined.

Lemma set_listen_port_payload_verified_witness :
  base_prefs 51413 [("listen_port", VNumber (NumPosInt 51413));
                    ("random_port", VBool false); ("upnp", VBool false)]%string /\
  exists prefs, Qbit.preferences (Sample.server 51413) = inr prefs /\
    (Qbit.verified (Qbit.mkUpdate 51413 true (Some false) (Some false)) = true <->
     obind (value_get "listen_port" prefs) as_u64 = Some 51413).
Proof.
  split.
  - apply (proj1 (set_listen_port_payload_verified (Sample.server 51413) 51413 None)).
    vm_compute. left. reflexivity.
  - apply (proj2 (set_listen_port_payload_verified (Sample.server 51413) 51413 None)).
    vm_compute. reflexivity.
Defined.

Lemma file_watcher_applies_only_changes_witness :
  Watch.applied_ports (trace_of (Watch.run_file_watcher (Sample.config Sample.gw_portmap)
     Sample.watch_platform Sample.watch_host Sample.three_writes)) = [51413].
Proof.
  apply (proj2 (file_watcher_applies_only_changes _ _ _ _) Sample.forwarded_port_file);
    [reflexivity|left; reflexivity|reflexivity|left; reflexivity| |reflexivity].
  right. do 3 eexists. split; [reflexivity|split; reflexivity].
Defined.

(* ========================================================================= *)
(** * Further properties of the code *)

(* ------------------------------------------------------------------------- *)
(** ** [qbit.rs] *)

Lemma resolve_interface_found srv requested items item rest :
  Qbit.endpoint_ok srv = true ->
  Qbit.interfaces srv = Some items ->
  filter (fun it => Qbit.matches_interface it requested) items = item :: rest ->
  Qbit.resolve_interface srv requested =
    ([EQbFetchInterfaces],
     inr (Some (Qbit.mkSelection (Qbit.item_name item)
                  (Qbit.or_else (Qbit.item_id item) (Qbit.item_interface item))))).
Proof.
  intros Hok Hint Hf. unfold Qbit.resolve_interface, Qbit.fetch_interfaces, Qbit.endpoint.
  rewrite Hok, Hint. cbn. rewrite Hf. reflexivity.
Qed.

(** X1: [resolve_interface] never fails: when the interface list cannot be
    fetched it logs a warning and selects no interface. *)
Theorem resolve_interface_never_fails srv requested :
  (exists sel, result_of (Qbit.resolve_interface srv requested) = inr sel) /\
  (forall e, result_of (Qbit.fetch_interfaces srv) = inl e ->
     result_of (Qbit.resolve_interface srv requested) = inr None /\
     In (ELog Warn "failed to fetch qBittorrent network interfaces")
        (trace_of (Qbit.resolve_interface srv requested))).
Proof.
  unfold Qbit.resolve_interface. rewrite result_of_catch, trace_of_catch.
  destruct (result_of (Qbit.fetch_interfaces srv)) as [e|items]; cbn.
  - split; [eauto|]. intros e' _. split; [reflexivity|].
    apply in_or_app. right. left. reflexivity.
  - split; [destruct (filter _ items); cbn; eauto|]. discriminate.
Qed.

(** X2: with a bind interface that qBittorrent knows, the update binds to the
    first interface of the list that matches the requested name: its name as
    [network_interface] and its id, or else its interface, as
    [network_interface_id]; the three base preferences are still sent. *)
Theorem set_listen_port_binds_first_match srv port bind iface items item rest :
  Qbit.bind_filter bind = Some iface ->
  Qbit.endpoint_ok srv = true ->
  Qbit.interfaces srv = Some items ->
  filter (fun it => Qbit.matches_interface it iface) items = item :: rest ->
  exists pl, In (EQbSetPreferences pl) (trace_of (Qbit.set_listen_port srv port bind)) /\
    base_prefs port pl /\
    map_get "network_interface" pl = Some (VString (Qbit.item_name item)) /\
    map_get "network_interface_id" pl
      = option_map VString (Qbit.or_else (Qbit.item_id item) (Qbit.item_interface item)).
Proof.
  intros Hb Hok Hint Hf.
  unfold Qbit.set_listen_port. rewrite trace_of_bind.
  assert (Hp : exists pl, Qbit.build_payload srv port bind = ([EQbFetchInterfaces], inr pl) /\
    base_prefs port pl /\
    map_get "network_interface" pl = Some (VString (Qbit.item_name item)) /\
    map_get "network_interface_id" pl
      = option_map VString (Qbit.or_else (Qbit.item_id item) (Qbit.item_interface item))).
  { unfold Qbit.build_payload. rewrite Hb.
    rewrite (resolve_interface_found srv iface items item rest Hok Hint Hf). cbn.
    destruct (Qbit.or_else (Qbit.item_id item) (Qbit.item_interface item)) as [id|];
      (eexists; split; [reflexivity|]);
      (split; [repeat apply base_prefs_insert; try discriminate; apply base_prefs_payload0|]);
      cbn; auto. }
  destruct Hp as (pl & Hpl & Hbase & Hname & Hid). exists pl.
  split; [|auto]. rewrite Hpl.
  unfold Qbit.post_preferences, Qbit.endpoint. rewrite Hok. msimpl.
  right. left. reflexivity.
Qed.

Lemma resolve_interface_shape srv requested :
  (exists sel, result_of (Qbit.resolve_interface srv requested) = inr sel) /\
  (forall ev, In ev (trace_of (Qbit.resolve_interface srv requested)) ->
     ev = EQbFetchInterfaces \/ exists l m, ev = ELog l m).
Proof.
  assert (Hf : forall ev, In ev (trace_of (Qbit.fetch_interfaces srv)) ->
                          ev = EQbFetchInterfaces).
  { unfold Qbit.fetch_interfaces, Qbit.endpoint.
    destruct (Qbit.endpoint_ok srv); [destruct (Qbit.interfaces srv)|]; cbn;
      intros ev H; repeat (destruct H as [<-|H]; [reflexivity|]); destruct H. }
  unfold Qbit.resolve_interface. rewrite result_of_catch, trace_of_catch.
  destruct (Qbit.fetch_interfaces srv) as [t [e|items]]; cbn in Hf |- *.
  - split; [eauto|]. intros ev H. apply in_app_or in H as [H|H]; [left; auto|].
    destruct H as [<-|[]]; eauto.
  - destruct (filter (fun it => Qbit.matches_interface it requested) items);
      cbn; rewrite ?app_nil_r; (split; [eauto|]); intros ev H; left; auto.
Qed.

Lemma build_payload_shape srv port bind :
  (exists pl, result_of (Qbit.build_payload srv port bind) = inr pl) /\
  (forall ev, In ev (trace_of (Qbit.build_payload srv port bind)) ->
     ev = EQbFetchInterfaces \/ exists l m, ev = ELog l m).
Proof.
  unfold Qbit.build_payload.
  destruct (Qbit.bind_filter bind) as [iface|]; [|cbn; split; [eauto|tauto]].
  rewrite result_of_bind, trace_of_bind.
  destruct (resolve_interface_shape srv iface) as [[sel Hs] Ht]. rewrite Hs.
  split; [destruct sel as [[name [id|]]|]; cbn; eauto|].
  intros ev H. apply in_app_or in H as [H|H]; [auto|].
  destruct sel as [[name [id|]]|]; cbn in H;
    repeat (destruct H as [<-|H]; [eauto|]); destruct H.
Qed.

(** The three preferences sent when no interface is bound. *)
Definition base_payload (port : N) : JMap :=
  [("listen_port", VNumber (NumPosInt port)); ("random_port", VBool false);
   ("upnp", VBool false)]%string.

(** X3: with no bind interface, or one that is blank once trimmed,
    [set_listen_port] never queries the interface list and every update it
    sends is exactly [listen_port], [random_port = false], [upnp = false]. *)
Theorem set_listen_port_unbound srv port bind :
  (bind = None \/ exists s, bind = Some s /\ string_trim s = ""%string) ->
  ~ In EQbFetchInterfaces (trace_of (Qbit.set_listen_port srv port bind)) /\
  (forall pl, In (EQbSetPreferences pl) (trace_of (Qbit.set_listen_port srv port bind)) ->
     pl = base_payload port).
Proof.
  intros Hbind.
  assert (Hf : Qbit.bind_filter bind = None)
    by (destruct Hbind as [->|(s & -> & Hs)]; [reflexivity|cbn; now rewrite Hs]).
  unfold Qbit.set_listen_port, Qbit.build_payload. rewrite Hf.
  unfold Qbit.post_preferences, Qbit.get_preferences, Qbit.endpoint.
  destruct (Qbit.endpoint_ok srv); [destruct (Qbit.post_error srv)|];
    [| destruct (Qbit.preferences srv) as [e|prefs]|]; cbn;
    try (destruct (obind (obind (value_get "listen_port" prefs) as_u64) u16_try_from)
           as [d|]; cbn; [destruct (d =? port); cbn|]);
    (split;
    [ intros H; repeat (destruct H as [H|H]; [discriminate|]); exact H
    | intros pl H;
      repeat (destruct H as [H|H]; [first [discriminate | injection H as <-; reflexivity]|]);
      destruct H ]).
Qed.

(** X4: when qBittorrent rejects the preference update, [set_listen_port]
    fails with that error, which is classified as transient, and it never
    queries the preferences back. *)
Theorem set_listen_port_post_rejected srv port bind msg :
  Qbit.endpoint_ok srv = true ->
  Qbit.post_error srv = Some msg ->
  result_of (Qbit.set_listen_port srv port bind) = inl (plain (RootQbit msg)) /\
  classify_error (plain (RootQbit msg)) = ExitCode.Transient /\
  ~ In EQbGetPreferences (trace_of (Qbit.set_listen_port srv port bind)).
Proof.
  intros Hok Hpe.
  destruct (build_payload_shape srv port bind) as [[pl Hpl] Ht].
  unfold Qbit.set_listen_port.
  destruct (Qbit.build_payload srv port bind) as [t [e|pl']];
    cbn in Hpl, Ht |- *; [discriminate|].
  injection Hpl as ->.
  unfold Qbit.post_preferences, Qbit.endpoint. rewrite Hok, Hpe. cbn.
  split; [reflexivity|split; [reflexivity|]].
  intros H. apply in_app_or in H as [H|H].
  - destruct (Ht _ H) as [H'|(l & m & H')]; discriminate.
  - cbn in H. repeat (destruct H as [H|H]; [discriminate|]). destruct H.
Qed.

(** X5: when the preferences read back have no [listen_port] that fits in a
    [u16], [set_listen_port] fails with "qBittorrent preferences missing
    listen_port", although the update was already sent and the preferences
    were queried. *)
Theorem set_listen_port_missing_listen_port srv port bind prefs :
  Qbit.endpoint_ok srv = true ->
  Qbit.post_error srv = None ->
  Qbit.preferences srv = inr prefs ->
  obind (obind (value_get "listen_port" prefs) as_u64) u16_try_from = None ->
  result_of (Qbit.set_listen_port srv port bind)
    = inl (plain (RootOther "qBittorrent preferences missing listen_port")) /\
  (exists pl, In (EQbSetPreferences pl) (trace_of (Qbit.set_listen_port srv port bind))) /\
  In EQbGetPreferences (trace_of (Qbit.set_listen_port srv port bind)).
Proof.
  intros Hok Hpe Hpr Hlp.
  destruct (build_payload_shape srv port bind) as [[pl Hpl] _].
  unfold Qbit.set_listen_port.
  destruct (Qbit.build_payload srv port bind) as [t [e|pl']];
    cbn in Hpl |- *; [discriminate|].
  injection Hpl as ->.
  unfold Qbit.post_preferences, Qbit.get_preferences, Qbit.endpoint.
  rewrite Hok, Hpe, Hpr. cbn. rewrite Hlp. cbn.
  split; [reflexivity|split].
  - exists pl. apply in_or_app. right. left. reflexivity.
  - apply in_or_app. right. right. right. left. reflexivity.
Qed.

(* ------------------------------------------------------------------------- *)
(** ** [portmap/mod.rs] and [portmap/natpmp.rs] *)

(** X6: a configured gateway that is not blank is used as given: the
    default route is never looked up, even with autodiscovery on.  A blank
    one counts as absent: with autodiscovery on, the default route is looked
    up and used. *)
Theorem resolve_gateway_configured h config g :
  Portmap.gateway config = Some g ->
  (string_trim g <> ""%string ->
     trace_of (Portmap.resolve_gateway h config) = [] /\
     (forall ip, Portmap.parse_ip h g = Some ip ->
        result_of (Portmap.resolve_gateway h config) = inr ip)) /\
  (string_trim g = ""%string -> Portmap.autodiscover_gateway config = true ->
     trace_of (Portmap.resolve_gateway h config) = [EDiscoverGateway] /\
     (forall ip, Portmap.default_gateway h = inr ip ->
        result_of (Portmap.resolve_gateway h config) = inr ip)).
Proof.
  intros Hg. unfold Portmap.resolve_gateway, Portmap.discover_or_fail. rewrite Hg.
  split.
  - intros Hne. apply String.eqb_neq in Hne. rewrite Hne. cbn [negb].
    destruct (Portmap.parse_ip h g) as [ip|]; cbn; split; try reflexivity;
      intros ip' Hip; congruence.
  - intros He Ha. rewrite He, Ha. cbn.
    destruct (Portmap.default_gateway h) as [err|ip]; cbn; split; try reflexivity;
      intros ip' Hip; congruence.
Qed.

(** X7: the only NAT-PMP request sent asks for the internal port of the
    request, the preferred external port or 0 when there is none, and the
    refresh interval truncated to 32 bits as lifetime. *)
Theorem natpmp_request_fields h req p i e l :
  In (ENatPmpRequest p i e l) (trace_of (Portmap.natpmp_map h req)) ->
  i = Portmap.req_internal_port req /\
  e = match Portmap.req_external_preference req with Some x => x | None => 0 end /\
  l = Portmap.req_refresh_secs req mod 4294967296 /\ l < 4294967296.
Proof.
  unfold Portmap.natpmp_map.
  destruct (Portmap.req_gateway req); [|cbn; tauto].
  destruct (Portmap.natpmp_new_error h); [cbn; tauto|].
  rewrite trace_of_bind. cbn [trace_of result_of emit fst snd app].
  intros [H|H].
  2: { destruct (Portmap.natpmp_send_error h);
         [|destruct (Portmap.natpmp_response h) as [|[]]]; cbn in H; destruct H. }
  injection H as _ <- <- <-.
  unfold Portmap.as_u32.
  assert (Hm : Portmap.req_refresh_secs req mod 4294967296 < 4294967296)
    by (apply N.mod_lt; discriminate).
  destruct (Portmap.req_refresh_secs req mod 4294967296 =? 0) eqn:E;
    [apply N.eqb_eq in E; rewrite E|]; repeat split; lia.
Qed.

(** X8: a NAT-PMP mapping reports the public port and lifetime of the
    gateway's answer; a zero lifetime becomes "no TTL", so the result never
    carries a zero TTL. *)
Theorem natpmp_map_result h req m :
  result_of (Portmap.natpmp_map h req) = inr m ->
  Portmap.strategy m = Portmap.StratNatPmp /\
  exists lt, Portmap.natpmp_response h = inr (Portmap.external_port m, lt) /\
    (Portmap.ttl m = None <-> is_zero lt = true) /\
    (forall t, Portmap.ttl m = Some t -> is_zero t = false).
Proof.
  unfold Portmap.natpmp_map.
  destruct (Portmap.req_gateway req); [|discriminate].
  destruct (Portmap.natpmp_new_error h); [discriminate|].
  rewrite result_of_bind. cbn [result_of emit snd].
  destruct (Portmap.natpmp_send_error h); [discriminate|].
  destruct (Portmap.natpmp_response h) as [msg|[pp lt]]; [discriminate|].
  cbn. intros Hm. injection Hm as <-. cbn. split; [reflexivity|].
  exists lt. split; [reflexivity|].
  destruct (is_zero lt) eqn:Ez; cbn; split.
  - tauto.
  - discriminate.
  - split; discriminate.
  - intros t Ht. injection Ht as <-. exact Ez.
Qed.

(** X9: a gateway given as an IPv6 address makes a NAT-PMP-only mapping fail
    before any request is sent, with a NAT-PMP error classified as
    transient. *)
Theorem map_with_natpmp_ipv6_gateway h config g a :
  Portmap.gateway config = Some g -> string_trim g <> ""%string ->
  Portmap.parse_ip h g = Some (Portmap.V6 a) ->
  Portmap.map_with_natpmp h config =
    ([ETryNatPmp],
     inl (plain (RootPortMap (NatPmp "NAT-PMP requires an IPv4 gateway address")))) /\
  classify_error (plain (RootPortMap (NatPmp "NAT-PMP requires an IPv4 gateway address")))
    = ExitCode.Transient.
Proof.
  intros Hg Hne Hip. split; [|reflexivity].
  apply String.eqb_neq in Hne.
  unfold Portmap.map_with_natpmp, Portmap.build_request, Portmap.resolve_gateway.
  rewrite Hg, Hne. cbn [negb]. rewrite Hip.
  destruct (Portmap.resolve_ports h config) as [i pr]. reflexivity.
Qed.

(** X10: the request built from the configuration keeps its protocol and
    refresh interval; a configured internal port of 0 asks for the host's
    random port with no external preference, any other internal port is
    also the preferred external port. *)
Theorem build_request_ports h config req :
  result_of (Portmap.build_request h config) = inr req ->
  Portmap.req_protocol req = Portmap.protocol_from_config (Portmap.protocol config) /\
  Portmap.req_refresh_secs req = Portmap.refresh_secs config /\
  (Portmap.internal_port config = 0 ->
     Portmap.req_internal_port req = Portmap.random_port h /\
     Portmap.req_external_preference req = None) /\
  (Portmap.internal_port config <> 0 ->
     Portmap.req_internal_port req = Portmap.internal_port config /\
     Portmap.req_external_preference req = Some (Portmap.internal_port config)).
Proof.
  unfold Portmap.build_request. rewrite result_of_bind.
  destruct (result_of (Portmap.resolve_gateway h config)) as [e|gw]; [discriminate|].
  unfold Portmap.resolve_ports.
  destruct (Portmap.internal_port config =? 0) eqn:E; cbn; intros Hr; injection Hr as <-;
    cbn; (split; [reflexivity|split; [reflexivity|]]).
  - apply N.eqb_eq in E. split; [auto|intros Hn; contradiction].
  - apply N.eqb_neq in E. split; [intros Hz; contradiction|auto].
Qed.

(* ------------------------------------------------------------------------- *)
(** ** [main.rs] *)

(** X11: when the negotiation of a cycle fails, [portmap_cycle] fails with
    that error and does nothing more (in particular it never contacts
    qBittorrent); the daemon then logs a warning and waits for the
    configured refresh interval. *)
Theorem portmap_cycle_negotiation_failed h srv mode config bind e :
  result_of (negotiate h mode (portmap config)) = inl e ->
  portmap_cycle h srv mode config bind
    = (trace_of (negotiate h mode (portmap config)), inl e) /\
  Main.portmap_daemon_delay h srv mode config bind
    = (trace_of (negotiate h mode (portmap config))
         ++ [ELog Warn "port mapping cycle failed"],
       inr (from_secs (Portmap.refresh_secs (portmap config)))).
Proof.
  intros He.
  assert (Hc : portmap_cycle h srv mode config bind
                 = (trace_of (negotiate h mode (portmap config)), inl e)).
  { unfold portmap_cycle.
    destruct (negotiate h mode (portmap config)) as [t [e'|m]]; cbn in He |- *;
      congruence. }
  split; [exact Hc|].
  unfold Main.portmap_daemon_delay. rewrite Hc. reflexivity.
Qed.

(** X12: when qBittorrent does not confirm the new port, the cycle logs the
    warning "listen port verification failed" and still succeeds. *)
Theorem portmap_cycle_unverified_warns h srv mode config bind m u :
  result_of (negotiate h mode (portmap config)) = inr m ->
  result_of (Qbit.set_listen_port srv (Portmap.external_port m) bind) = inr u ->
  Qbit.verified u = false ->
  In (ELog Warn "listen port verification failed")
     (trace_of (portmap_cycle h srv mode config bind)) /\
  exists d, result_of (portmap_cycle h srv mode config bind) = inr d.
Proof.
  intros Hm Hu Hv. unfold portmap_cycle.
  destruct (negotiate h mode (portmap config)) as [t [e|m']]; cbn in Hm; [discriminate|].
  injection Hm as ->. cbn.
  destruct (Qbit.set_listen_port srv (Portmap.external_port m) bind) as [t' [e|u']];
    cbn in Hu; [discriminate|].
  injection Hu as ->. cbn. rewrite Hv. cbn. split; [|eauto].
  apply in_or_app. right. right. apply in_or_app. right. left. reflexivity.
Qed.

Lemma classify_error_not_success e : classify_error e <> ExitCode.Success.
Proof.
  unfold classify_error. destruct (err_root e) as [| |[]| |]; discriminate.
Qed.

Lemma exit_code_value_zero c : exit_code_value c = 0 <-> c = ExitCode.Success.
Proof. destruct c; cbn; split; congruence. Qed.

(** X13: [run] exits with status 0 exactly when it succeeds: no error of
    any step is ever classified as a success. *)
Theorem run_exit_code_zero_iff_ok cli rh :
  Cli.exit_code (snd (Cli.run cli rh)) = 0 <-> exists r, snd (Cli.run cli rh) = inr r.
Proof.
  unfold Cli.run, Cli.fail_with.
  repeat match goal with |- context [match ?x with _ => _ end] => destruct x end;
    cbn [snd Cli.exit_code];
    first
      [ split; [intros _; eexists; reflexivity | reflexivity]
      | split; [ rewrite exit_code_value_zero; intros Hz;
                 exfalso; first [discriminate | eapply classify_error_not_success; exact Hz]
               | intros [r Hr]; discriminate ] ].
Qed.

(** X14: [run] reaches [run_once] or [run_daemon] only after the
    configuration was loaded, the password found, the URL parsed, the client
    built, the login accepted and a plan resolved. *)
Theorem run_sync_after_setup cli rh :
  In ESync (fst (Cli.run cli rh)) ->
  exists cfg, Cli.load_config rh = inr cfg /\
    (exists pw, Cli.qb_password rh = inr pw) /\
    Cli.url_parse rh = None /\ Cli.client_new rh = None /\ Cli.login rh = None /\
    exists plan, resolve_plan (Cli.strategy cli) cfg (Cli.platform rh) = inr plan.
Proof.
  unfold Cli.run.
  destruct (Cli.json cli && negb (Cli.once cli)); [cbn; tauto|].
  destruct (Cli.load_config rh) as [err|cfg]; [cbn; intros [H|[]]; discriminate|].
  destruct (Cli.qb_password rh) as [err|pw] eqn:Epw; [cbn; intros [H|[]]; discriminate|].
  destruct (Cli.url_parse rh) as [err|]; [cbn; intros [H|[]]; discriminate|].
  destruct (Cli.client_new rh) as [err|]; [cbn; intros [H|[]]; discriminate|].
  destruct (Cli.login rh) as [err|]; [cbn; intros [H|[H|[]]]; discriminate|].
  destruct (resolve_plan (Cli.strategy cli) cfg (Cli.platform rh)) as [err|plan] eqn:Ep;
    [cbn; intros [H|[H|[]]]; discriminate|].
  intros _. exists cfg. repeat split; eauto.
Qed.

(** X15: in [run_once] on the [File] plan, a forwarded-port file that cannot
    be read or parsed fails the run before qBittorrent is contacted; a file
    whose contents do not parse as a port gives the transient error
    "invalid forwarded port value". *)
Theorem run_once_file_read_failed h srv path config pl rf bind e :
  Watch.read_forwarded_port_once config pl rf = inl e ->
  Main.run_once h srv (PlanFile path) config pl rf bind
    = ([ELog Debug "reading forwarded port"], inl e) /\
  (forall fp c, resolved_forwarded_port_path config pl = Some fp -> rf fp = inr c ->
     e = plain (RootOther "invalid forwarded port value") /\
     classify_error e = ExitCode.Transient).
Proof.
  intros He. split.
  - unfold Main.run_once. rewrite He. reflexivity.
  - intros fp c Hfp Hc. revert He.
    unfold Watch.read_forwarded_port_once. rewrite Hfp, Hc.
    destruct (parse_port c); [|discriminate]. intros He. injection He as <-.
    split; reflexivity.
Qed.

Lemma try_pcp_without_feature h req :
  Portmap.pcp_feature h = false ->
  exists e, result_of (Portmap.try_pcp h req) = inl e.
Proof.
  intros Hf. unfold Portmap.try_pcp. rewrite result_of_bind. cbn. rewrite Hf. cbn. eauto.
Qed.

(** X16: in a build without the [pcp] feature, a successful [run_once] in
    [Auto] mode always reports the strategy "natpmp". *)
Theorem run_once_auto_without_pcp_is_natpmp h srv config pl rf bind o :
  Portmap.pcp_feature h = false ->
  result_of (Main.run_once h srv (PlanPortmap ModeAuto) config pl rf bind) = inr o ->
  Cli.o_strategy o = "natpmp"%string.
Proof.
  intros Hf. unfold Main.run_once, negotiate. rewrite result_of_bind.
  destruct (result_of (Portmap.map_prefer_pcp_fallback_natpmp h (portmap config)))
    as [e|m] eqn:Em; [discriminate|].
  assert (Hs : Portmap.strategy m = Portmap.StratNatPmp).
  { destruct (result_of (Portmap.build_request h (portmap config))) as [e|req] eqn:Eb.
    - unfold Portmap.map_prefer_pcp_fallback_natpmp in Em.
      rewrite result_of_bind, Eb in Em. discriminate.
    - destruct (try_pcp_without_feature h req Hf) as [e Hp].
      destruct (map_prefer_pcp_failed h (portmap config) req e Eb Hp) as [Hr _].
      apply (try_natpmp_strategy h req). congruence. }
  rewrite result_of_bind.
  destruct (result_of (Qbit.set_listen_port srv (Portmap.external_port m) bind)) as [e|u];
    [discriminate|].
  cbn. intros Ho. injection Ho as <-. cbn. rewrite Hs. reflexivity.
Qed.

Lemma str_app_assoc (a b c : string) : ((a ++ b) ++ c = a ++ (b ++ c))%string.
Proof. induction a as [|x a IH]; cbn; [reflexivity|now rewrite IH]. Qed.

Lemma join_sep_cons sep x xs :
  Main.join_sep sep (x :: xs)
    = (x ++ match xs with [] => "" | _ => sep ++ Main.join_sep sep xs end)%string.
Proof.
  destruct xs; cbn; [|reflexivity].
  induction x as [|c x IH]; cbn; [reflexivity|now rewrite <- IH].
Qed.

(** X17: the report note is absent exactly when no TTL was returned and
    qBittorrent reports neither random ports nor UPnP as still enabled; with
    a TTL, the note starts with "ttl=<seconds>s". *)
Theorem build_note_shape u ttl :
  (Main.build_note u ttl = None <->
     ttl = None /\ Qbit.random_port u <> Some true /\ Qbit.upnp u <> Some true) /\
  (forall t, ttl = Some t ->
     exists rest, Main.build_note u ttl
                  = Some ("ttl=" ++ string_of_N (d_secs t) ++ "s" ++ rest)%string).
Proof.
  unfold Main.build_note. split.
  - destruct ttl as [t|], (Qbit.random_port u) as [[]|], (Qbit.upnp u) as [[]|];
      cbn [List.app];
      solve [ split; [discriminate | intros (H1 & H2 & H3); congruence]
            | split; [intros _; repeat split; congruence | reflexivity] ].
  - intros t ->. cbn [List.app]. rewrite join_sep_cons.
    eexists. f_equal. rewrite !str_app_assoc. reflexivity.
Qed.

(* ------------------------------------------------------------------------- *)
(** ** [main.rs]: the daemons *)

Lemma duration_max_ten a : 10 * NANOS_PER_SEC <= as_nanos (duration_max a (from_secs 10)).
Proof.
  unfold duration_max, duration_le, as_nanos, from_secs, NANOS_PER_SEC.
  destruct a as [s n]; cbn [d_secs d_nanos].
  destruct (s <? 10) eqn:E1; cbn [orb]; [cbn; lia|].
  apply N.ltb_ge in E1.
  destruct ((s =? 10) && (n <=? 0)); cbn; lia.
Qed.

Lemma portmap_daemon_delay_ok h srv mode config bind :
  exists d, result_of (Main.portmap_daemon_delay h srv mode config bind) = inr d /\
    N.min (Portmap.refresh_secs (portmap config)) 10 * NANOS_PER_SEC <= as_nanos d.
Proof.
  unfold Main.portmap_daemon_delay. rewrite result_of_catch.
  destruct (result_of (portmap_cycle h srv mode config bind)) as [e|d] eqn:Ec; cbn.
  - eexists. split; [reflexivity|]. unfold as_nanos, from_secs, NANOS_PER_SEC; cbn [d_secs d_nanos]. lia.
  - eexists. split; [reflexivity|].
    destruct (portmap_cycle_success h srv mode config bind d Ec) as (m & _ & ->).
    destruct (Portmap.ttl m) as [t|].
    + pose proof (duration_max_ten (div_u32 t 2)). unfold NANOS_PER_SEC in *. lia.
    + unfold as_nanos, from_secs, NANOS_PER_SEC; cbn [d_secs d_nanos]. lia.
Qed.

Lemma portmap_daemon_loop_survives mode config bind rest : forall round,
  result_of (Main.portmap_daemon_loop mode config bind round rest) = inr tt /\
  forall h srv, In (h, srv) (round :: rest) ->
    exists d, result_of (Main.portmap_daemon_delay h srv mode config bind) = inr d /\
      In (ESleep d) (trace_of (Main.portmap_daemon_loop mode config bind round rest)) /\
      N.min (Portmap.refresh_secs (portmap config)) 10 * NANOS_PER_SEC <= as_nanos d.
Proof.
  induction rest as [|r rest IH]; intros [h srv];
    destruct (portmap_daemon_delay_ok h srv mode config bind) as (d & Hd & Hb);
    destruct (Main.portmap_daemon_delay h srv mode config bind) as [t [e|d']] eqn:Ed;
    cbn in Hd; try discriminate; injection Hd as ->.
  - cbn [Main.portmap_daemon_loop]. rewrite Ed. cbn. split; [reflexivity|].
    intros h' srv' [Hh|[]]. injection Hh as <- <-. exists d. rewrite Ed.
    split; [reflexivity|]. split; [|exact Hb].
    apply in_or_app. right. left. reflexivity.
  - destruct (IH r) as [Hr Hin]. cbn [Main.portmap_daemon_loop]. rewrite Ed. cbn.
    destruct (Main.portmap_daemon_loop mode config bind r rest) as [t' res'] eqn:El.
    cbn in Hr |- *. split; [exact Hr|].
    intros h' srv' [Hh|Hh].
    + injection Hh as <- <-. exists d. rewrite Ed. split; [reflexivity|].
      split; [|exact Hb]. apply in_or_app. right. left. reflexivity.
    + destruct (Hin h' srv' Hh) as (d2 & Hd2 & Hin2 & Hb2).
      exists d2. split; [exact Hd2|]. split; [|exact Hb2].
      cbn in Hin2. apply in_or_app. right. right. exact Hin2.
Qed.

(** X19: the port-mapping daemon never stops on an error: it ends with
    [Ok(())], and each round sleeps for that round's delay, which is at
    least the configured refresh interval or 10 s, whichever is smaller,
    also when the round failed. *)
Theorem run_portmap_daemon_survives mode config bind round rest :
  result_of (Main.run_portmap_daemon mode config bind round rest) = inr tt /\
  forall h srv, In (h, srv) (round :: rest) ->
    exists d, result_of (Main.portmap_daemon_delay h srv mode config bind) = inr d /\
      In (ESleep d) (trace_of (Main.run_portmap_daemon mode config bind round rest)) /\
      N.min (Portmap.refresh_secs (portmap config)) 10 * NANOS_PER_SEC <= as_nanos d.
Proof.
  destruct (portmap_daemon_loop_survives mode config bind rest round) as [Hr Hin].
  unfold Main.run_portmap_daemon.
  destruct (Main.portmap_daemon_loop mode config bind round rest) as [t r] eqn:El.
  cbn in Hr |- *. split; [exact Hr|].
  intros h srv Hh. destruct (Hin h srv Hh) as (d & Hd & Hi & Hb).
  exists d. cbn in Hi. split; [exact Hd|]. split; [right; exact Hi|exact Hb].
Qed.

(** The preference updates in a trace, in order. *)
Fixpoint sent_payloads (t : list Event) : list JMap :=
  match t with
  | [] => []
  | EQbSetPreferences pl :: t' => pl :: sent_payloads t'
  | _ :: t' => sent_payloads t'
  end.

Lemma sent_payloads_app a b : sent_payloads (a ++ b) = sent_payloads a ++ sent_payloads b.
Proof. induction a as [|[] a IH]; cbn; rewrite ?IH; reflexivity. Qed.

Lemma set_listen_port_unbound_sent srv port bind :
  Qbit.bind_filter bind = None -> Qbit.endpoint_ok srv = true ->
  sent_payloads (trace_of (Qbit.set_listen_port srv port bind)) = [base_payload port].
Proof.
  intros Hf Hok.
  unfold Qbit.set_listen_port, Qbit.build_payload. rewrite Hf.
  unfold Qbit.post_preferences, Qbit.get_preferences, Qbit.endpoint. rewrite Hok.
  destruct (Qbit.post_error srv);
    [| destruct (Qbit.preferences srv) as [e|prefs]]; cbn;
    try (destruct (obind (obind (value_get "listen_port" prefs) as_u64) u16_try_from)
           as [d|]; cbn; [destruct (d =? port); cbn|]);
    reflexivity.
Qed.

Lemma file_daemon_loop_ok bind received :
  result_of (Main.file_daemon_loop bind received) = inr tt /\
  (Qbit.bind_filter bind = None ->
   Forall (fun r => Qbit.endpoint_ok (snd r) = true) received ->
   sent_payloads (trace_of (Main.file_daemon_loop bind received))
     = map (fun r => base_payload (fst r)) received).
Proof.
  induction received as [|[port srv] rest [IHr IHs]]; cbn [Main.file_daemon_loop].
  - split; reflexivity.
  - rewrite !result_of_bind, !trace_of_bind, result_of_catch, trace_of_catch.
    cbn [result_of trace_of log emit fst snd app].
    destruct (result_of (Qbit.set_listen_port srv port bind)) as [e|u] eqn:Eu;
      cbn [result_of trace_of log emit ret fst snd app]; (split; [exact IHr|]);
      intros Hf Hall; inversion Hall as [|? ? Hok Hrest]; subst; cbn in Hok;
      cbn [sent_payloads]; rewrite !sent_payloads_app,
        (set_listen_port_unbound_sent srv port bind Hf Hok), (IHs Hf Hrest);
      reflexivity.
Qed.

(** X20: the file-watcher daemon never stops on a failed update: it ends
    with [Ok(())]; with no bind interface, every port received is submitted
    to qBittorrent once, in the order received, as [listen_port] with random
    ports and UPnP off. *)
Theorem run_file_daemon_applies_each bind received :
  result_of (Main.run_file_daemon bind received) = inr tt /\
  (Qbit.bind_filter bind = None ->
   Forall (fun r => Qbit.endpoint_ok (snd r) = true) received ->
   sent_payloads (trace_of (Main.run_file_daemon bind received))
     = map (fun r => base_payload (fst r)) received).
Proof.
  destruct (file_daemon_loop_ok bind received) as [Hr Hs].
  unfold Main.run_file_daemon. rewrite result_of_bind, trace_of_bind. cbn.
  split; [exact Hr|]. intros Hf Hall. exact (Hs Hf Hall).
Qed.

(** X18: on the file plan, [run_once] takes the port from
    [read_forwarded_port_once] (the configured path, whatever path the plan
    carries) and, with no bind interface, submits exactly that port to
    qBittorrent, once; a successful run reports the strategy "file". *)
Theorem run_once_file_submits_read_port h srv path config pl rf p :
  Watch.read_forwarded_port_once config pl rf = inr p ->
  Qbit.endpoint_ok srv = true ->
  sent_payloads (trace_of (Main.run_once h srv (PlanFile path) config pl rf None))
    = [base_payload p] /\
  (forall o, result_of (Main.run_once h srv (PlanFile path) config pl rf None) = inr o ->
     Cli.o_strategy o = "file"%string).
Proof.
  intros Hr Hok. unfold Main.run_once. rewrite Hr. msimpl.
  cbn [result_of trace_of log emit of_result ret fst snd app]. msimpl.
  pose proof (set_listen_port_unbound_sent srv p None eq_refl Hok) as Hs.
  split.
  - cbn [sent_payloads]. rewrite sent_payloads_app, Hs.
    destruct (result_of (Qbit.set_listen_port srv p None)); reflexivity.
  - intros o. destruct (result_of (Qbit.set_listen_port srv p None)); [discriminate|].
    intros Ho. injection Ho as <-. reflexivity.
Qed.

(* ------------------------------------------------------------------------- *)
(** ** [config.rs] *)


Lemma list_length_ind {A} (P : list A -> Prop) :
  (forall s, (forall t, (List.length t < List.length s)%nat -> P t) -> P s) -> forall s, P s.
Proof.
  intros H s. remember (List.length s) as n eqn:En. revert s En.
  induction n as [n IH] using (well_founded_induction Wf_nat.lt_wf).
  intros s ->. apply H. intros t Ht. now apply (IH (List.length t)).
Qed.

Section StripWs.
Variables (w2 : ascii -> ascii -> bool) (w3 : ascii -> ascii -> ascii -> bool).

(** What [strip_ws] leaves is a suffix of its input. *)
Lemma strip_ws_suffix s : exists p, s = p ++ Parse.strip_ws w2 w3 s.
Proof.
  induction s as [s IH] using list_length_ind.
  destruct s as [|a s1]; [exists []; reflexivity|]. cbn [Parse.strip_ws].
  destruct (Parse.ws_byte1 a).
  { destruct (IH s1 ltac:(cbn; lia)) as [p Hp]. exists (a :: p). cbn. congruence. }
  destruct s1 as [|b s2]; [exists []; reflexivity|].
  destruct (w2 a b).
  { destruct (IH s2 ltac:(cbn; lia)) as [p Hp]. exists (a :: b :: p). cbn. congruence. }
  destruct s2 as [|c s3]; [exists []; reflexivity|].
  destruct (w3 a b c); [|exists []; reflexivity].
  destruct (IH s3 ltac:(cbn; lia)) as [p Hp]. exists (a :: b :: c :: p). cbn. congruence.
Qed.

Lemma strip_ws_length s : (List.length (Parse.strip_ws w2 w3 s) <= List.length s)%nat.
Proof.
  destruct (strip_ws_suffix s) as [p Hp].
  rewrite Hp at 2. rewrite length_app. lia.
Qed.

Lemma strip_ws_idem s :
  Parse.strip_ws w2 w3 (Parse.strip_ws w2 w3 s) = Parse.strip_ws w2 w3 s.
Proof.
  induction s as [s IH] using list_length_ind.
  destruct s as [|a s1]; [reflexivity|]. cbn [Parse.strip_ws].
  destruct (Parse.ws_byte1 a) eqn:E1; [apply IH; cbn; lia|].
  destruct s1 as [|b s2]; [cbn; now rewrite E1|].
  destruct (w2 a b) eqn:E2; [apply IH; cbn; lia|].
  destruct s2 as [|c s3]; [cbn; now rewrite E1, E2|].
  destruct (w3 a b c) eqn:E3; [apply IH; cbn; lia|].
  cbn. now rewrite E1, E2, E3.
Qed.

(** A prefix of what [strip_ws] leaves alone is left alone too. *)
Lemma strip_ws_prefix p q :
  Parse.strip_ws w2 w3 (p ++ q) = p ++ q -> Parse.strip_ws w2 w3 p = p.
Proof.
  intros H. destruct p as [|a p1]; [reflexivity|].
  cbn [app Parse.strip_ws] in H |- *.
  assert (Hlen : forall t, (List.length t < List.length (a :: p1 ++ q))%nat ->
                 Parse.strip_ws w2 w3 t <> a :: p1 ++ q).
  { intros t Ht He. pose proof (strip_ws_length t). rewrite He in *. lia. }
  destruct (Parse.ws_byte1 a) eqn:E1;
    [exfalso; apply (Hlen (p1 ++ q)); [cbn; lia|exact H]|].
  destruct p1 as [|b p2]; [reflexivity|].
  cbn [app] in H, Hlen.
  destruct (w2 a b) eqn:E2;
    [exfalso; apply (Hlen (p2 ++ q)); [cbn; lia|exact H]|].
  destruct p2 as [|c p3]; [reflexivity|].
  cbn [app] in H, Hlen.
  destruct (w3 a b c) eqn:E3;
    [exfalso; apply (Hlen (p3 ++ q)); [cbn; lia|exact H]|].
  reflexivity.
Qed.

End StripWs.

Lemma trim_idem s : Parse.trim (Parse.trim s) = Parse.trim s.
Proof.
  unfold Parse.trim.
  set (u := Parse.trim_start s).
  assert (Hu : Parse.trim_start u = u) by apply strip_ws_idem.
  assert (Hs : Parse.trim_start (Parse.trim_end u) = Parse.trim_end u).
  { unfold Parse.trim_end.
    destruct (strip_ws_suffix (fun b a => Parse.ws_byte2 a b)
                (fun c b a => Parse.ws_byte3 a b c) (rev u)) as [p Hp].
    assert (Hu' : u = rev (Parse.strip_ws (fun b a => Parse.ws_byte2 a b)
                             (fun c b a => Parse.ws_byte3 a b c) (rev u)) ++ rev p).
    { rewrite <- rev_app_distr, <- Hp. symmetry. apply rev_involutive. }
    unfold Parse.trim_start in Hu |- *. rewrite Hu' in Hu.
    exact (strip_ws_prefix _ _ _ _ Hu). }
  rewrite Hs. unfold Parse.trim_end. rewrite rev_involutive, strip_ws_idem.
  reflexivity.
Qed.

Lemma string_trim_idem s : string_trim (string_trim s) = string_trim s.
Proof.
  unfold string_trim. rewrite list_ascii_of_string_of_list_ascii, trim_idem. reflexivity.
Qed.

(** X22: [empty_string_as_none] never keeps a blank value, and what it
    keeps is already trimmed. *)
Theorem empty_string_as_none_trimmed opt s :
  empty_string_as_none opt = Some s ->
  s <> ""%string /\ string_trim s = s.
Proof.
  unfold empty_string_as_none. destruct opt as [v|]; [|discriminate].
  destruct (String.eqb (string_trim v) "") eqn:E; [discriminate|].
  intros H. injection H as <-. apply String.eqb_neq in E.
  split; [exact E|apply string_trim_idem].
Qed.

(** X23: [post_process] changes only the forwarded-port path; read from an
    absolute configuration file below the root, a relative forwarded-port
    path becomes absolute, so a second [post_process] changes nothing. *)
Theorem post_process_anchors src config :
  qbittorrent (post_process src config) = qbittorrent config /\
  portmap (post_process src config) = portmap config /\
  (forall p, src = Some p -> path_abs p = true -> path_comps p <> [] ->
     (forall fp, forwarded_port_path (post_process src config) = Some fp ->
        path_abs fp = true) /\
     post_process src (post_process src config) = post_process src config).
Proof.
  unfold post_process.
  destruct (forwarded_port_path config) as [path|] eqn:Ef;
    [|split; [reflexivity|split; [reflexivity|]]; intros p _ _ _; split; [intros fp H; rewrite Ef in H; discriminate|];
      rewrite Ef; reflexivity].
  destruct (path_abs path) eqn:Ea; cbn [negb].
  - split; [reflexivity|split; [reflexivity|]]. intros p _ _ _.
    rewrite Ef, Ea. split; [|reflexivity]. intros fp H. injection H as <-. exact Ea.
  - destruct (match src with Some p => parent p | None => None end) as [dir|] eqn:Ed.
    + cbn. split; [reflexivity|split; [reflexivity|]]. intros p -> Hp Hc.
      unfold parent in Ed. destruct (path_comps p) as [|x xs]; [contradiction|].
      injection Ed as <-. unfold join. rewrite Ea. cbn. rewrite Hp.
      split; [intros fp H; injection H as <-; reflexivity|reflexivity].
    + split; [reflexivity|split; [reflexivity|]]. intros p -> Hp Hc.
      unfold parent in Ed. destruct (path_comps p); [contradiction|discriminate].
Qed.

(** X24: [find_config] returns a path given on the command line without
    looking at the file system; otherwise, on Linux, the per-user file
    comes first when it exists; with no candidate for the platform it fails
    with the configuration error [MissingConfig] (exit code 2). *)
Theorem find_config_choice cli pl mac dir :
  (forall p, cli = Some p -> find_config cli pl mac dir = ([], inr p)) /\
  (forall base, cli = None -> target_linux pl = true -> dir = Some base ->
     fs_exists pl (push base ["qb-port-sync"; "config.toml"]%string) = true ->
     result_of (find_config cli pl mac dir)
       = inr (push base ["qb-port-sync"; "config.toml"]%string)) /\
  (cli = None -> target_linux pl = false -> mac = false ->
     find_config cli pl mac dir = ([], inl (plain (RootConfig MissingConfig))) /\
     exit_code_value (classify_error (plain (RootConfig MissingConfig))) = 2).
Proof.
  unfold find_config. split; [|split].
  - intros p ->. reflexivity.
  - intros base -> Hl -> He. rewrite Hl. cbn [List.app find]. rewrite He. reflexivity.
  - intros -> Hl ->. rewrite Hl. split; reflexivity.
Qed.

(* ------------------------------------------------------------------------- *)
(** ** [watch.rs]: the watcher loop *)

Lemma bind_ext {A B} (m : M A) (k k' : A -> M B) :
  (forall a, k a = k' a) -> bind m k = bind m k'.
Proof. intros H. destruct m as [t [e|a]]; cbn; [reflexivity|now rewrite H]. Qed.

(** X25: nothing after the shutdown signal is processed: the watcher loop
    does the same with any events that would follow it. *)
Theorem watch_loop_stops_at_shutdown path evs more more' : forall last results,
  Watch.watch_loop path last results (evs ++ Watch.WShutdown :: more)
  = Watch.watch_loop path last results (evs ++ Watch.WShutdown :: more').
Proof.
  induction evs as [|ev evs IH]; intros last results; [reflexivity|].
  cbn [app Watch.watch_loop].
  destruct ev as [|paths content|msg]; [reflexivity| |].
  - destruct (negb (Watch.is_relevant paths path)); [apply IH|].
    apply bind_ext. intros [port|]; [|apply IH].
    destruct (negb (Watch.opt_N_eqb last (Some port))); apply bind_ext; intros _;
      [apply bind_ext; intros results'|]; apply IH.
  - apply bind_ext. intros _. apply IH.
Qed.

(** X26: the watcher loop fails only when the client refuses an update, and
    then with the client's own error: it is one of the client's results. *)
Theorem watch_loop_failure path events : forall last results e,
  result_of (Watch.watch_loop path last results events) = inl e ->
  In (inl e) results.
Proof.
  induction events as [|ev events IH]; intros last results e; [discriminate|].
  cbn [Watch.watch_loop].
  destruct ev as [|paths content|msg]; [discriminate| |].
  - destruct (negb (Watch.is_relevant paths path)); [apply IH|].
    unfold Watch.handle_event.
    destruct (Watch.read_port content) as [port|]; msimpl; [|apply IH].
    destruct (negb (Watch.opt_N_eqb last (Some port))); msimpl; [|apply IH].
    unfold Watch.update_listen_port.
    destruct results as [|[e'|[]] rest]; msimpl.
    + intros H. destruct (IH _ _ _ H).
    + intros H. injection H as <-. left; reflexivity.
    + intros H. right. exact (IH _ _ _ H).
  - msimpl. apply IH.
Qed.

(** X27: [run_file_watcher] stops with the watcher's error, before reading
    or applying any port, when the file watcher cannot be set up. *)
Theorem run_file_watcher_setup_failed config pl wh events path msg :
  resolved_forwarded_port_path config pl = Some path ->
  (fs_exists pl path = true \/ parent path <> None) ->
  Watch.watch_error wh = Some msg ->
  Watch.run_file_watcher config pl wh events = ([], inl (plain (RootOther msg))).
Proof.
  intros Hp Hw He. unfold Watch.run_file_watcher. rewrite Hp, He.
  destruct (fs_exists pl path); [reflexivity|].
  destruct Hw as [Hw|Hw]; [discriminate|].
  destruct (parent path); [reflexivity|contradiction].
Qed.

(* ------------------------------------------------------------------------- *)
(** ** [main.rs]: strategy resolution *)

(** X28: off Linux the file strategy is never chosen automatically, and an
    explicit file strategy without a configured forwarded-port path fails as
    unsupported (exit code 3). *)
Theorem resolve_plan_off_linux config pl :
  target_linux pl = false ->
  resolve_plan OptAuto config pl = inr (PlanPortmap ModeAuto) /\
  (forwarded_port_path config = None ->
     resolve_plan OptFile config pl
       = inl (plain (RootUnsupported "forwarded port file path unavailable on this platform")) /\
     exit_code_value (classify_error
       (plain (RootUnsupported "forwarded port file path unavailable on this platform"))) = 3).
Proof.
  intros Hl. unfold resolve_plan, prefer_file_strategy. rewrite Hl. split; [reflexivity|].
  intros Hf. unfold resolve_forwarded_port_path, resolved_forwarded_port_path.
  rewrite Hf, Hl. split; reflexivity.
Qed.

(* ------------------------------------------------------------------------- *)
(** ** Instances of the further properties on concrete inputs *)

Lemma resolve_interface_never_fails_witness :
  result_of (Qbit.resolve_interface (Sample.server 51413) "wg0") = inr None /\
  In (ELog Warn "failed to fetch qBittorrent network interfaces")
     (trace_of (Qbit.resolve_interface (Sample.server 51413) "wg0")).
Proof.
  apply (proj2 (resolve_interface_never_fails (Sample.server 51413) "wg0")
           (plain (RootQbit "unexpected response status"))).
  reflexivity.
Defined.

Lemma set_listen_port_binds_first_match_witness :
  exists pl, In (EQbSetPreferences pl)
      (trace_of (Qbit.set_listen_port Sample.interface_server 51413 (Some " wg0 "%string))) /\
    base_prefs 51413 pl /\
    map_get "network_interface" pl = Some (VString "wg0") /\
    map_get "network_interface_id" pl = Some (VString "wg0-uuid").
Proof.
  apply (set_listen_port_binds_first_match Sample.interface_server 51413
           (Some " wg0 "%string) "wg0"
           [Qbit.mkItem "eth0" None None; Qbit.mkItem "wg0" (Some "wg0"%string) (Some "wg0-uuid"%string)]
           (Qbit.mkItem "wg0" (Some "wg0"%string) (Some "wg0-uuid"%string)) []);
    vm_compute; reflexivity.
Defined.

Lemma set_listen_port_unbound_witness :
  ~ In EQbFetchInterfaces
      (trace_of (Qbit.set_listen_port Sample.interface_server 51413 (Some "  "%string))) /\
  (forall pl, In (EQbSetPreferences pl)
      (trace_of (Qbit.set_listen_port Sample.interface_server 51413 (Some "  "%string))) ->
     pl = base_payload 51413).
Proof.
  apply set_listen_port_unbound. right. exists "  "%string.
  split; [reflexivity|vm_compute; reflexivity].
Defined.

Lemma set_listen_port_post_rejected_witness :
  result_of (Qbit.set_listen_port Sample.rejecting_server 51413 None)
    = inl (plain (RootQbit "unexpected response status")) /\
  classify_error (plain (RootQbit "unexpected response status")) = ExitCode.Transient /\
  ~ In EQbGetPreferences (trace_of (Qbit.set_listen_port Sample.rejecting_server 51413 None)).
Proof. apply set_listen_port_post_rejected; reflexivity. Defined.

Lemma set_listen_port_missing_listen_port_witness :
  result_of (Qbit.set_listen_port Sample.server_without_port 51413 None)
    = inl (plain (RootOther "qBittorrent preferences missing listen_port")) /\
  (exists pl, In (EQbSetPreferences pl)
                 (trace_of (Qbit.set_listen_port Sample.server_without_port 51413 None))) /\
  In EQbGetPreferences (trace_of (Qbit.set_listen_port Sample.server_without_port 51413 None)).
Proof.
  apply (set_listen_port_missing_listen_port Sample.server_without_port 51413 None
           (VObject [("upnp", VBool false)]%string)); reflexivity.
Defined.

Lemma resolve_gateway_configured_witness :
  trace_of (Portmap.resolve_gateway (Sample.host (inl "unused"%string)) Sample.gw_portmap) = [] /\
  result_of (Portmap.resolve_gateway (Sample.host (inl "unused"%string)) Sample.gw_portmap)
    = inr (Portmap.V4 167903233).
Proof.
  destruct (proj1 (resolve_gateway_configured (Sample.host (inl "unused"%string))
                     Sample.gw_portmap "10.2.0.1" eq_refl)) as [Ht Hr];
    [vm_compute; discriminate|].
  split; [exact Ht|apply Hr; reflexivity].
Defined.

Lemma natpmp_request_fields_witness :
  In (ENatPmpRequest NatTCP 51413 0 0)
     (trace_of (Portmap.natpmp_map (Sample.host (inl "timeout"%string))
                  (Portmap.mkMapRequest Portmap.Tcp (Portmap.V4 167903233) 51413 None
                     4294967296))) /\
  0 = 4294967296 mod 4294967296.
Proof.
  assert (H : In (ENatPmpRequest NatTCP 51413 0 0)
     (trace_of (Portmap.natpmp_map (Sample.host (inl "timeout"%string))
                  (Portmap.mkMapRequest Portmap.Tcp (Portmap.V4 167903233) 51413 None
                     4294967296)))) by (vm_compute; left; reflexivity).
  split; [exact H|].
  exact (proj1 (proj2 (proj2 (natpmp_request_fields _ _ _ _ _ _ H)))).
Defined.

Lemma natpmp_map_result_witness :
  Portmap.strategy (Portmap.mkMapResult 51413 None Portmap.StratNatPmp) = Portmap.StratNatPmp /\
  exists lt, Portmap.natpmp_response (Sample.host (inr (51413, mkDuration 0 0)))
               = inr (51413, lt) /\
    (Portmap.ttl (Portmap.mkMapResult 51413 None Portmap.StratNatPmp) = None
       <-> is_zero lt = true) /\
    (forall t, Portmap.ttl (Portmap.mkMapResult 51413 None Portmap.StratNatPmp) = Some t ->
       is_zero t = false).
Proof.
  apply (natpmp_map_result (Sample.host (inr (51413, mkDuration 0 0))) Sample.request).
  reflexivity.
Defined.

Lemma map_with_natpmp_ipv6_gateway_witness :
  Portmap.map_with_natpmp Sample.v6_host Sample.gw_portmap =
    ([ETryNatPmp],
     inl (plain (RootPortMap (NatPmp "NAT-PMP requires an IPv4 gateway address")))) /\
  classify_error (plain (RootPortMap (NatPmp "NAT-PMP requires an IPv4 gateway address")))
    = ExitCode.Transient.
Proof.
  apply (map_with_natpmp_ipv6_gateway Sample.v6_host Sample.gw_portmap "10.2.0.1" 1);
    [reflexivity|vm_compute; discriminate|reflexivity].
Defined.

Lemma build_request_ports_witness :
  Portmap.Udp = Portmap.protocol_from_config Portmap.UDP /\
  300 = 300 /\
  (0 = 0 -> 49160 = Portmap.random_port (Sample.host (inl "x"%string)) /\ None = @None N) /\
  (0 <> 0 -> 49160 = 0 /\ None = Some 0).
Proof.
  exact (build_request_ports (Sample.host (inl "x"%string))
           (Portmap.mkPortMapConfig 0 Portmap.UDP 300 false (Some "10.2.0.1"%string))
           (Portmap.mkMapRequest Portmap.Udp (Portmap.V4 167903233) 49160 None 300)
           eq_refl).
Defined.

Lemma portmap_cycle_negotiation_failed_witness :
  let cfg := Sample.config (Sample.portmap Portmap.TCP 300 false None) in
  portmap_cycle (Sample.host (inl "unused"%string)) (Sample.server 51413) ModeAuto cfg None
    = (trace_of (negotiate (Sample.host (inl "unused"%string)) ModeAuto (portmap cfg)),
       inl (plain (RootOther "gateway discovery disabled and no gateway configured"))) /\
  Main.portmap_daemon_delay (Sample.host (inl "unused"%string)) (Sample.server 51413)
      ModeAuto cfg None
    = (trace_of (negotiate (Sample.host (inl "unused"%string)) ModeAuto (portmap cfg))
         ++ [ELog Warn "port mapping cycle failed"],
       inr (from_secs 300)).
Proof.
  intros cfg. apply portmap_cycle_negotiation_failed. reflexivity.
Defined.

Lemma portmap_cycle_unverified_warns_witness :
  In (ELog Warn "listen port verification failed")
     (trace_of (portmap_cycle (Sample.host (inr (51413, from_secs 60))) (Sample.server 6881)
                  ModeNatOnly (Sample.config Sample.gw_portmap) None)) /\
  exists d, result_of (portmap_cycle (Sample.host (inr (51413, from_secs 60)))
                         (Sample.server 6881) ModeNatOnly (Sample.config Sample.gw_portmap)
                         None) = inr d.
Proof.
  apply (portmap_cycle_unverified_warns _ _ _ _ _
           (Portmap.mkMapResult 51413 (Some (from_secs 60)) Portmap.StratNatPmp)
           (Qbit.mkUpdate 6881 false (Some false) (Some false)));
    reflexivity.
Defined.

Lemma run_sync_after_setup_witness :
  exists cfg, Cli.load_config Sample.run_host = inr cfg /\
    (exists pw, Cli.qb_password Sample.run_host = inr pw) /\
    Cli.url_parse Sample.run_host = None /\ Cli.client_new Sample.run_host = None /\
    Cli.login Sample.run_host = None /\
    exists plan, resolve_plan OptAuto cfg (Cli.platform Sample.run_host) = inr plan.
Proof.
  apply (run_sync_after_setup (Cli.mkCli None true OptAuto true 0) Sample.run_host).
  vm_compute. right. right. left. reflexivity.
Defined.

Lemma run_once_file_read_failed_witness :
  Main.run_once (Sample.host (inl "unused"%string)) (Sample.server 51413)
      (PlanFile Sample.forwarded_port_file) (Sample.config Sample.gw_portmap)
      Sample.watch_platform (fun _ => inr "port 51413"%string) None
    = ([ELog Debug "reading forwarded port"],
       inl (plain (RootOther "invalid forwarded port value"))) /\
  (forall fp c,
     resolved_forwarded_port_path (Sample.config Sample.gw_portmap) Sample.watch_platform
       = Some fp ->
     (fun _ : Path => @inr Error string "port 51413"%string) fp = inr c ->
     plain (RootOther "invalid forwarded port value")
       = plain (RootOther "invalid forwarded port value") /\
     classify_error (plain (RootOther "invalid forwarded port value")) = ExitCode.Transient).
Proof. apply run_once_file_read_failed. reflexivity. Defined.

Lemma run_once_auto_without_pcp_is_natpmp_witness :
  Cli.o_strategy (Cli.mkOutcome "natpmp" (Some 51413) true (Some "ttl=60s"%string))
    = "natpmp"%string.
Proof.
  apply (run_once_auto_without_pcp_is_natpmp (Sample.host (inr (51413, from_secs 60)))
           (Sample.server 51413) (Sample.config Sample.gw_portmap) Sample.watch_platform
           (fun _ => inr "1"%string) None); reflexivity.
Defined.

Lemma build_note_shape_witness :
  exists rest, Main.build_note (Qbit.mkUpdate 51413 true (Some false) (Some true))
                 (Some (from_secs 60))
               = Some ("ttl=" ++ string_of_N 60 ++ "s" ++ rest)%string.
Proof. apply (proj2 (build_note_shape _ _) (from_secs 60)). reflexivity. Defined.

Lemma run_portmap_daemon_survives_witness :
  exists d, result_of (Main.portmap_daemon_delay (Sample.host (inr (51413, from_secs 60)))
                         (Sample.server 51413) ModeNatOnly (Sample.config Sample.gw_portmap)
                         None) = inr d /\
    In (ESleep d) (trace_of (Main.run_portmap_daemon ModeNatOnly
                               (Sample.config Sample.gw_portmap) None
                               (Sample.host (inr (51413, from_secs 60)), Sample.server 51413)
                               [])) /\
    N.min 300 10 * NANOS_PER_SEC <= as_nanos d.
Proof.
  apply (proj2 (run_portmap_daemon_survives ModeNatOnly (Sample.config Sample.gw_portmap) None
                  (Sample.host (inr (51413, from_secs 60)), Sample.server 51413) [])).
  left. reflexivity.
Defined.

Lemma run_file_daemon_applies_each_witness :
  sent_payloads (trace_of (Main.run_file_daemon None
                             [(51413, Sample.server 51413); (6881, Sample.rejecting_server)]))
    = [base_payload 51413; base_payload 6881].
Proof.
  apply (proj2 (run_file_daemon_applies_each None
                  [(51413, Sample.server 51413); (6881, Sample.rejecting_server)]));
    [reflexivity|repeat constructor].
Defined.

Lemma run_once_file_submits_read_port_witness :
  sent_payloads (trace_of (Main.run_once (Sample.host (inl "unused"%string))
                             (Sample.server 51413) (PlanFile Sample.forwarded_port_file)
                             (Sample.config Sample.gw_portmap) Sample.watch_platform
                             (fun _ => inr " 51413"%string) None))
    = [base_payload 51413] /\
  (forall o, result_of (Main.run_once (Sample.host (inl "unused"%string))
                          (Sample.server 51413) (PlanFile Sample.forwarded_port_file)
                          (Sample.config Sample.gw_portmap) Sample.watch_platform
                          (fun _ => inr " 51413"%string) None) = inr o ->
     Cli.o_strategy o = "file"%string).
Proof. apply run_once_file_submits_read_port; vm_compute; reflexivity. Defined.


Lemma empty_string_as_none_trimmed_witness :
  "wg0"%string <> ""%string /\ string_trim "wg0" = "wg0"%string.
Proof.
  apply (empty_string_as_none_trimmed (Some " wg0  "%string)). vm_compute. reflexivity.
Defined.

Lemma post_process_anchors_witness :
  let cfg := mkConfig (mkQbConfig "http://127.0.0.1:8080" "admin" None)
               (Some (mkPath false ["forwarded_port"%string])) Sample.gw_portmap in
  let src := mkPath true ["etc"; "qb-port-sync"; "config.toml"]%string in
  (forall fp, forwarded_port_path (post_process (Some src) cfg) = Some fp ->
     path_abs fp = true) /\
  post_process (Some src) (post_process (Some src) cfg) = post_process (Some src) cfg.
Proof.
  intros cfg src.
  apply (proj2 (proj2 (post_process_anchors (Some src) cfg)) src); [reflexivity|reflexivity|].
  discriminate.
Defined.

Lemma find_config_choice_witness :
  find_config None (mkPlatform false None 501 (fun _ => true)) false None
    = ([], inl (plain (RootConfig MissingConfig))) /\
  exit_code_value (classify_error (plain (RootConfig MissingConfig))) = 2.
Proof.
  apply (proj2 (proj2 (find_config_choice None (mkPlatform false None 501 (fun _ => true))
                         false None))); reflexivity.
Defined.

Lemma watch_loop_failure_witness :
  In (@inl Error unit (plain (RootOther "qBittorrent request failed"%string)))
     [inl (plain (RootOther "qBittorrent request failed"%string))].
Proof.
  apply (watch_loop_failure Sample.forwarded_port_file
           [Watch.WNotify [] (Some "51413"%string)] None
           [inl (plain (RootOther "qBittorrent request failed"%string))]).
  reflexivity.
Defined.

Lemma run_file_watcher_setup_failed_witness :
  Watch.run_file_watcher (Sample.config Sample.gw_portmap) Sample.watch_platform
      (Watch.mkWatchHost (Some "inotify watch limit reached"%string) None [])
      Sample.three_writes
    = ([], inl (plain (RootOther "inotify watch limit reached"))).
Proof.
  apply (run_file_watcher_setup_failed _ _ _ _ Sample.forwarded_port_file);
    [reflexivity|left; reflexivity|reflexivity].
Defined.

Lemma resolve_plan_off_linux_witness :
  resolve_plan OptAuto (Sample.config Sample.gw_portmap)
      (mkPlatform false None 501 (fun _ => true)) = inr (PlanPortmap ModeAuto) /\
  (forwarded_port_path (Sample.config Sample.gw_portmap) = None ->
     resolve_plan OptFile (Sample.config Sample.gw_portmap)
       (mkPlatform false None 501 (fun _ => true))
       = inl (plain (RootUnsupported "forwarded port file path unavailable on this platform")) /\
     exit_code_value (classify_error
       (plain (RootUnsupported "forwarded port file path unavailable on this platform"))) = 3).
Proof. apply resolve_plan_off_linux. reflexivity. Defined.
